(** * api-assistant: a shallow embedding of [Assistant.py] and [weatherv2.py]

    The two programs are sequential glue around external services: a hosted
    language model, a token endpoint, a four-level REST hierarchy and a public
    weather service.  The embedding keeps the Python control flow (try/except,
    early return, in-place mutation of the module-level chatbot) in a small
    state-and-exception monad; the external services and the library builtins
    the code calls ([json.loads], [json.dumps], [str.strip], [repr]) are an
    interface the program is parametrised by.  Every external call and every
    [logger.error] is recorded in a trace, so that statements such as "the
    Resource Client is never invoked" are statements about that trace. *)

From Stdlib Require Import String Ascii List ZArith Bool Lia.
From Stdlib Require Import Floats.PrimFloat.
From Stdlib Require Import DecimalString.
Import ListNotations.

Local Open Scope string_scope.
Local Open Scope Z_scope.

Set Warnings "-register-all,-inexact-float".

(** ** Python values *)

(** The values [json.loads] and [Response.json()] produce.  A [dict] keeps
    its insertion order; [JNull] is Python's [None]. *)
Inductive json : Type :=
| JNull
| JBool (b : bool)
| JInt (z : Z)
| JFloat (f : float)
| JStr (s : string)
| JList (l : list json)
| JDict (d : list (string * json)).

(** Python truth value testing, as used by [if x:] and [if not x:]. *)
Definition truthy (v : json) : bool :=
  match v with
  | JNull => false
  | JBool b => b
  | JInt z => negb (z =? 0)
  | JFloat f => negb (PrimFloat.eqb f 0%float)
  | JStr s => negb (String.eqb s "")
  | JList l => match l with [] => false | _ => true end
  | JDict d => match d with [] => false | _ => true end
  end.

(** [type(v).__name__] *)
Definition type_name (v : json) : string :=
  match v with
  | JNull => "NoneType"
  | JBool _ => "bool"
  | JInt _ => "int"
  | JFloat _ => "float"
  | JStr _ => "str"
  | JList _ => "list"
  | JDict _ => "dict"
  end.

Fixpoint dict_lookup (k : string) (d : list (string * json)) : option json :=
  match d with
  | [] => None
  | (k', v) :: d' => if String.eqb k k' then Some v else dict_lookup k d'
  end.

(** [v == "literal"] for a value compared with a string literal. *)
Definition eq_str (v : json) (lit : string) : bool :=
  match v with
  | JStr s => String.eqb s lit
  | _ => false
  end.

Definition quote : string := String (ascii_of_nat 34) EmptyString.
Definition apostrophe : string := String (ascii_of_nat 39) EmptyString.
Definition newline : string := String (ascii_of_nat 10) EmptyString.

Definition string_of_Z (z : Z) : string :=
  NilZero.string_of_int (Z.to_int z).

(** ** Exceptions *)

(** The classes the handlers of the two programs tell apart, and a class for
    every other subclass of [Exception]. *)
Inductive exn_class : Type :=
| JSONDecodeError
| KeyError
| AttributeError
| TypeError
| HTTPError
| OtherException.

(** An exception with the text [str(e)] gives. *)
Record exn : Type := mkExn { exn_type : exn_class; exn_str : string }.

Inductive result (A : Type) : Type :=
| Ok (a : A)
| Raise (e : exn).
Arguments Ok {A} a.
Arguments Raise {A} e.

Definition is_Ok {A} (r : result A) : bool :=
  match r with Ok _ => true | Raise _ => false end.

Definition attribute_error (v : json) (attr : string) : exn :=
  mkExn AttributeError
    (apostrophe ++ type_name v ++ apostrophe ++ " object has no attribute "
       ++ apostrophe ++ attr ++ apostrophe).

Definition key_error (k : string) : exn :=
  mkExn KeyError (apostrophe ++ k ++ apostrophe).

(** [v.get(k, default)]: defined on a [dict] only. *)
Definition py_get (v : json) (k : string) (default : json) : result json :=
  match v with
  | JDict d => Ok (match dict_lookup k d with Some x => x | None => default end)
  | _ => Raise (attribute_error v "get")
  end.

(** [v[k]] for a string key [k]; the texts of the [TypeError]s are those
    of Python 3.11 and later. *)
Definition py_getitem (v : json) (k : string) : result json :=
  match v with
  | JDict d =>
      match dict_lookup k d with
      | Some x => Ok x
      | None => Raise (key_error k)
      end
  | JStr _ => Raise (mkExn TypeError "string indices must be integers, not 'str'")
  | JList _ => Raise (mkExn TypeError "list indices must be integers or slices, not str")
  | _ => Raise (mkExn TypeError
                  (apostrophe ++ type_name v ++ apostrophe ++ " object is not subscriptable"))
  end.

(** [v[:n]]: a prefix of a list or of a string. *)
Definition py_slice_to (n : nat) (v : json) : result json :=
  match v with
  | JList l => Ok (JList (firstn n l))
  | JStr s => Ok (JStr (substring 0 n s))
  | JDict _ => Raise (mkExn TypeError "unhashable type: 'slice'")
  | _ => Raise (mkExn TypeError
                  (apostrophe ++ type_name v ++ apostrophe ++ " object is not subscriptable"))
  end.

(** [l[-n:]]: the last [n] elements. *)
Definition last_n {A} (n : nat) (l : list A) : list A :=
  skipn (length l - n) l.

(** ** Conversation turns and requests *)

(** A turn of the conversation: [{"role": ..., "content": ...}]. *)
Record turn : Type := mkTurn { role : string; content : string }.

Definition user_turn (text : string) : turn := mkTurn "user" text.
Definition assistant_turn (text : string) : turn := mkTurn "assistant" text.

(** The keyword arguments of [anthropic_client.messages.create]. *)
Record model_request : Type := mkModelRequest {
  model : string;
  max_tokens : Z;
  system : string;
  messages : list turn
}.

(** What the code reads of a [requests.Response]. *)
Record response : Type := mkResponse {
  status_code : Z;
  reason : string;
  url : string;
  json_body : result json          (* the outcome of [.json()] *)
}.

(** [Response.raise_for_status()] of the requests library: an [HTTPError]
    for the 4xx and 5xx statuses, nothing otherwise. *)
Definition raise_for_status (r : response) : result unit :=
  if (400 <=? status_code r) && (status_code r <? 500) then
    Raise (mkExn HTTPError
             (string_of_Z (status_code r) ++ " Client Error: " ++ reason r
                ++ " for url: " ++ url r))
  else if (500 <=? status_code r) && (status_code r <? 600) then
    Raise (mkExn HTTPError
             (string_of_Z (status_code r) ++ " Server Error: " ++ reason r
                ++ " for url: " ++ url r))
  else Ok tt.

(** The password-grant request of [get_access_token]. *)
Record token_request : Type := mkTokenRequest {
  tr_url : option string;
  tr_data : list (string * option string);
  tr_auth : option string * option string
}.

(** Everything the programs do to the outside, in order. *)
Inductive event : Type :=
| EvModel (req : model_request)
| EvPost (req : token_request)
| EvGet (target : string) (authorization : string)
| EvLog (msg : string).

Definition is_model_call (e : event) : bool :=
  match e with EvModel _ => true | _ => false end.

Definition is_resource_call (e : event) : bool :=
  match e with EvGet _ _ => true | _ => false end.

Definition is_log (e : event) : bool :=
  match e with EvLog _ => true | _ => false end.

Definition model_calls (t : list event) : list model_request :=
  flat_map (fun e => match e with EvModel r => [r] | _ => [] end) t.

(** The environment variables read at import time; [os.getenv] gives [None]
    for an unset one. *)
Record config : Type := mkConfig {
  username : option string;
  password : option string;
  client_id : option string;
  client_secret : option string;
  token_url : option string;
  api_url : option string
}.

(** How an f-string renders an optional string. *)
Definition fmt_opt (o : option string) : string :=
  match o with Some s => s | None => "None" end.

(** ** The outside world *)

(** The services and builtins the chatbot calls.  [World] is whatever state
    the services have between two calls; a call returns its outcome and the
    next state of the world. *)
Record Externals (World : Type) : Type := mkExternals {
  (* [anthropic_client.messages.create(...)] followed by [.content[0].text] *)
  messages_create : model_request -> World -> result string * World;
  (* [requests.post(url, data=..., auth=...)] *)
  requests_post : token_request -> World -> result response * World;
  (* [requests.get(url, headers={"Authorization": ...})] *)
  requests_get : string -> string -> World -> result response * World;
  (* [json.loads] *)
  json_loads : string -> result json;
  (* [json.dumps(v, indent=2)] *)
  json_dumps_indent2 : json -> string;
  (* [str.strip] *)
  str_strip : string -> string;
  (* [repr] *)
  py_repr : json -> string
}.
Arguments messages_create {World} _ _ _.
Arguments requests_post {World} _ _ _.
Arguments requests_get {World} _ _ _ _.
Arguments json_loads {World} _ _.
Arguments json_dumps_indent2 {World} _ _.
Arguments str_strip {World} _ _.
Arguments py_repr {World} _ _.

(** ** A monad for state and exceptions *)

(** A computation runs from a state to an outcome and a state; what it did
    to the state before raising stays done. *)
Definition M (S A : Type) : Type := S -> result A * S.

Definition ret {S A} (a : A) : M S A := fun s => (Ok a, s).

Definition raise {S A} (e : exn) : M S A := fun s => (Raise e, s).

Definition bind {S A B} (c : M S A) (k : A -> M S B) : M S B :=
  fun s =>
    match c s with
    | (Ok a, s') => k a s'
    | (Raise e, s') => (Raise e, s')
    end.

Definition lift {S A} (r : result A) : M S A := fun s => (r, s).

(** [try: body  except Exception as e: handler e] *)
Definition try_except {S A} (body : M S A) (handler : exn -> M S A) : M S A :=
  fun s =>
    match body s with
    | (Ok a, s') => (Ok a, s')
    | (Raise e, s') => handler e s'
    end.

Declare Scope monad_scope.
Delimit Scope monad_scope with monad.
Notation "x <- c1 ;; c2" := (bind c1 (fun x => c2))
  (at level 61, c1 at next level, right associativity) : monad_scope.
Notation "c1 ;; c2" := (bind c1 (fun _ => c2))
  (at level 61, right associativity) : monad_scope.
Local Open Scope monad_scope.

(** ** The chatbot's objects *)

Record ExternalAPIClient : Type := mkExternalAPIClient { token : json }.

Record ClaudeChatbot : Type := mkClaudeChatbot {
  api_client : ExternalAPIClient;
  conversation_history : list turn
}.

(** The module-level [chatbot], the world and the trace so far. *)
Record state (World : Type) : Type := mkState {
  chatbot : ClaudeChatbot;
  world : World;
  trace : list event
}.
Arguments mkState {World} _ _ _.
Arguments chatbot {World} _.
Arguments world {World} _.
Arguments trace {World} _.

(** The body of an HTTP reply of the Flask application and its status. *)
Record http_reply : Type := mkReply { reply_status : Z; reply_body : json }.

Definition jsonify_turn (t : turn) : json :=
  JDict [("role", JStr (role t)); ("content", JStr (content t))].

Definition error_object (msg : string) : json := JDict [("error", JStr msg)].

Definition SORRY : string := "Sorry, there was an error processing your request.".

Definition INTENT_PROMPT : string :=
  "You are a helpful assistant for a school IoT API." ++ newline
  ++ newline
  ++ "If the user asks for schools, rooms, sensors, or sensor values, respond with a JSON object in this format:" ++ newline
  ++ "{" ++ newline
  ++ "  " ++ quote ++ "needsAPI" ++ quote ++ ": true," ++ newline
  ++ "  " ++ quote ++ "apiType" ++ quote ++ ": " ++ quote ++ "schools|rooms|sensors|values" ++ quote ++ "," ++ newline
  ++ "  " ++ quote ++ "params" ++ quote ++ ": {"
       ++ quote ++ "school_uuid" ++ quote ++ ": " ++ quote ++ "..." ++ quote ++ ", "
       ++ quote ++ "room_uuid" ++ quote ++ ": " ++ quote ++ "..." ++ quote ++ ", "
       ++ quote ++ "sensor_uuid" ++ quote ++ ": " ++ quote ++ "..." ++ quote ++ "}" ++ newline
  ++ "}" ++ newline
  ++ newline
  ++ "If no API is needed, respond normally with helpful text.".

Definition FORMAT_PROMPT (user_message dumped : string) : string :=
  "You are a helpful assistant for a school IoT API." ++ newline
  ++ newline
  ++ "The user asked: " ++ quote ++ user_message ++ quote ++ newline
  ++ newline
  ++ "Here is the API data you requested:" ++ newline
  ++ dumped ++ newline
  ++ newline
  ++ "Please present this data in a clear, well-formatted way. Use tables, lists, and markdown formatting to make it easy to read. Do NOT return JSON - return formatted text.".

(** ** Assistant.py *)

Section Assistant.
Context {World : Type}.
Variable ext : Externals World.
Variable cfg : config.

Local Abbreviation St := (state World).

(** [str(v)], which is what an f-string applies to [{v}]. *)
Definition py_str (v : json) : string :=
  match v with
  | JStr s => s
  | _ => py_repr ext v
  end.

(** *** Primitive effects *)

Definition emit (e : event) : M St unit :=
  fun s => (Ok tt, mkState (chatbot s) (world s) (trace s ++ [e])).

(** [logger.error(msg)] *)
Definition logger_error (msg : string) : M St unit := emit (EvLog msg).

Definition call_world {A} (f : World -> result A * World) : M St A :=
  fun s => let (r, w) := f (world s) in (r, mkState (chatbot s) w (trace s)).

Definition anthropic_create (req : model_request) : M St string :=
  emit (EvModel req) ;; call_world (messages_create ext req).

Definition http_post (req : token_request) : M St response :=
  emit (EvPost req) ;; call_world (requests_post ext req).

Definition http_get (target authorization : string) : M St response :=
  emit (EvGet target authorization) ;; call_world (requests_get ext target authorization).

Definition get_self : M St ClaudeChatbot := fun s => (Ok (chatbot s), s).

Definition set_self (c : ClaudeChatbot) : M St unit :=
  fun s => (Ok tt, mkState c (world s) (trace s)).

(** [self.conversation_history.append(t)] *)
Definition history_append (t : turn) : M St unit :=
  self <- get_self ;;
  set_self (mkClaudeChatbot (api_client self) (conversation_history self ++ [t])).

(** *** API client functions *)

Definition get_access_token : M St json :=
  let data := [("grant_type", Some "password");
               ("username", username cfg);
               ("password", password cfg)] in
  response <- http_post (mkTokenRequest (token_url cfg) data
                           (client_id cfg, client_secret cfg)) ;;
  lift (raise_for_status response) ;;
  body <- lift (json_body response) ;;
  lift (py_get body "access_token" JNull).

Definition authorized_get (access_token : json) (target : string) : M St json :=
  let headers := "Bearer " ++ py_str access_token in
  r <- http_get target headers ;;
  lift (raise_for_status r) ;;
  lift (json_body r).

Definition get_schools (access_token : json) : M St json :=
  authorized_get access_token (fmt_opt (api_url cfg) ++ "/group/main").

Definition get_school_rooms (access_token school_uuid : json) : M St json :=
  authorized_get access_token
    (fmt_opt (api_url cfg) ++ "/group/" ++ py_str school_uuid ++ "/subgroup/3").

Definition get_room_sensors (access_token room_uuid : json) : M St json :=
  authorized_get access_token
    (fmt_opt (api_url cfg) ++ "/group/" ++ py_str room_uuid ++ "/resource").

Definition get_sensor_latest_value (access_token sensor_uuid : json) : M St json :=
  authorized_get access_token
    (fmt_opt (api_url cfg) ++ "/resource/" ++ py_str sensor_uuid ++ "/latest").

(** *** ExternalAPIClient *)

Definition ExternalAPIClient_init : M St ExternalAPIClient :=
  t <- get_access_token ;;
  ret (mkExternalAPIClient t).

Definition self_token : M St json :=
  self <- get_self ;; ret (token (api_client self)).

Definition fetch_schools : M St json :=
  t <- self_token ;; get_schools t.

Definition fetch_rooms (school_uuid : json) : M St json :=
  t <- self_token ;; get_school_rooms t school_uuid.

Definition fetch_sensors (room_uuid : json) : M St json :=
  t <- self_token ;; get_room_sensors t room_uuid.

Definition fetch_sensor_value (sensor_uuid : json) : M St json :=
  t <- self_token ;; get_sensor_latest_value t sensor_uuid.

(** *** ClaudeChatbot *)

(** [ClaudeChatbot()]: builds the client, hence fetches a token. *)
Definition ClaudeChatbot_init : M St ClaudeChatbot :=
  c <- ExternalAPIClient_init ;;
  ret (mkClaudeChatbot c []).

Definition recent_history (history : list turn) : list turn :=
  if (4 <? length history)%nat then last_n 4 history else history.

Definition build_messages (history : list turn) (user_message : string) : list turn :=
  map (fun msg => mkTurn (role msg) (content msg)) (recent_history history)
    ++ [mkTurn "user" user_message].

Definition system_prompt_for (user_message : string) (api_data : json) : string :=
  match api_data with
  | JNull => INTENT_PROMPT
  | _ => FORMAT_PROMPT user_message (json_dumps_indent2 ext api_data)
  end.

(** [call_claude_api(user_message, api_data=None)] *)
Definition call_claude_api (user_message : string) (api_data : json) : M St string :=
  try_except
    (let system_prompt := system_prompt_for user_message api_data in
     self <- get_self ;;
     let messages := build_messages (conversation_history self) user_message in
     anthropic_create
       (mkModelRequest "claude-sonnet-4-20250514" 1500 system_prompt messages))
    (fun e =>
       logger_error ("Claude API error: " ++ exn_str e) ;;
       ret SORRY).

(** The [try] block of [fetch_external_data]. *)
Definition fetch_block (api_type params : json) : M St json :=
  if eq_str api_type "schools" then
    fetch_schools
  else if eq_str api_type "rooms" then
    school_uuid <- lift (py_get params "school_uuid" JNull) ;;
    if negb (truthy school_uuid) then
      ret (error_object "School UUID required for fetching rooms")
    else fetch_rooms school_uuid
  else if eq_str api_type "sensors" then
    room_uuid <- lift (py_get params "room_uuid" JNull) ;;
    if negb (truthy room_uuid) then
      ret (error_object "Room UUID required for fetching sensors")
    else fetch_sensors room_uuid
  else if eq_str api_type "values" then
    sensor_uuid <- lift (py_get params "sensor_uuid" JNull) ;;
    if negb (truthy sensor_uuid) then
      ret (error_object "Sensor UUID required for fetching values")
    else fetch_sensor_value sensor_uuid
  else
    ret (error_object ("Unknown API type: " ++ py_str api_type)).

(** [fetch_external_data(api_type, params)] *)
Definition fetch_external_data (api_type params : json) : M St json :=
  try_except (fetch_block api_type params)
    (fun e =>
       logger_error ("API fetch error: " ++ exn_str e) ;;
       ret (error_object ("Failed to fetch " ++ py_str api_type ++ ": " ++ exn_str e))).

(** The [try] block of [process_message]: [Some r] when it reaches its
    [return r], [None] when it falls out of the [if]. *)
Definition directive_block (user_message claude_response : string)
  : M St (option string) :=
  parsed_response <- lift (json_loads ext (str_strip ext claude_response)) ;;
  needs <- lift (py_get parsed_response "needsAPI" JNull) ;;
  if truthy needs then
    api_type <- lift (py_getitem parsed_response "apiType") ;;
    params <- lift (py_get parsed_response "params" (JDict [])) ;;
    api_data <- fetch_external_data api_type params ;;
    final_response <- call_claude_api user_message api_data ;;
    history_append (mkTurn "assistant" final_response) ;;
    ret (Some final_response)
  else ret None.

(** The two [except] clauses of [process_message]; both log and go on. *)
Definition directive_handler (e : exn) : M St (option string) :=
  match exn_type e with
  | JSONDecodeError | KeyError =>
      logger_error ("JSON parsing error: " ++ exn_str e) ;; ret None
  | _ =>
      logger_error ("API processing error: " ++ exn_str e) ;; ret None
  end.

(** [process_message(user_message)] *)
Definition process_message (user_message : string) : M St string :=
  history_append (mkTurn "user" user_message) ;;
  claude_response <- call_claude_api user_message JNull ;;
  returned <- try_except (directive_block user_message claude_response)
                directive_handler ;;
  match returned with
  | Some final_response => ret final_response
  | None =>
      history_append (mkTurn "assistant" claude_response) ;;
      ret claude_response
  end.

(** *** Routes *)

(** [v.strip()] of a value that may not be a string. *)
Definition py_strip (v : json) : result string :=
  match v with
  | JStr s => Ok (str_strip ext s)
  | _ => Raise (attribute_error v "strip")
  end.

(** [POST /api/chat]; [get_json] is the outcome of [request.get_json()]. *)
Definition chat (get_json : result json) : M St http_reply :=
  try_except
    (data <- lift get_json ;;
     message <- lift (py_get data "message" (JStr "")) ;;
     user_message <- lift (py_strip message) ;;
     if negb (truthy (JStr user_message)) then
       ret (mkReply 400 (error_object "Message required"))
     else
       response <- process_message user_message ;;
       self <- get_self ;;
       ret (mkReply 200
              (JDict [("response", JStr response);
                      ("conversation",
                       JList (map jsonify_turn (conversation_history self)))])))
    (fun e =>
       logger_error ("Chat error: " ++ exn_str e) ;;
       ret (mkReply 500 (error_object "Internal error"))).

(** [POST /api/clear] has no handler of its own: a failure to build the new
    chatbot leaves the old one in place and propagates. *)
Definition clear_conversation : M St http_reply :=
  c <- ClaudeChatbot_init ;;
  set_self c ;;
  ret (mkReply 200 (JDict [("status", JStr "cleared")])).

End Assistant.

(** ** weatherv2.py *)

Module Weather.

(** What the script calls: [requests.get(url, params=...)] and
    [asciichartpy.plot]. *)
Record Externals (World : Type) : Type := mkExternals {
  requests_get : string -> list (string * json) -> World -> result response * World;
  ac_plot : json -> result string
}.
Arguments requests_get {World} _ _ _ _.
Arguments ac_plot {World} _ _.

(** What the script does, in order: requests, chart renderings, and the
    lines it prints. *)
Inductive event : Type :=
| EvGet (target : string) (params : list (string * json))
| EvPlot (series : json)
| EvPrint (text : string).

Record state (World : Type) : Type := mkState {
  world : World;
  trace : list event
}.
Arguments mkState {World} _ _.
Arguments world {World} _.
Arguments trace {World} _.

Definition printed (t : list event) : list string :=
  flat_map (fun e => match e with EvPrint s => [s] | _ => [] end) t.

Definition plotted (t : list event) : list json :=
  flat_map (fun e => match e with EvPlot s => [s] | _ => [] end) t.

Definition cities : list (string * (float * float)) :=
  [("Berlin", (52.52, 13.41)%float);
   ("Paris", (48.85, 2.35)%float);
   ("Rome", (41.90, 12.49)%float)].

Definition url : string := "https://api.open-meteo.com/v1/forecast".

Fixpoint string_repeat (s : string) (n : nat) : string :=
  match n with
  | O => ""
  | S n' => s ++ string_repeat s n'
  end.

(* U+2014 and U+00B0 in UTF-8 *)
Definition em_dash : string :=
  String (ascii_of_nat 226) (String (ascii_of_nat 128) (String (ascii_of_nat 148) "")).
Definition degree : string :=
  String (ascii_of_nat 194) (String (ascii_of_nat 176) "").

Definition temperature_title (city : string) : string :=
  city ++ " " ++ em_dash ++ " Temperature (" ++ degree ++ "C)".

Definition humidity_title (city : string) : string :=
  city ++ " " ++ em_dash ++ " Humidity (%)".

Definition separator : string := newline ++ string_repeat "=" 40.

Section Script.
Context {World : Type}.
Variable ext : Externals World.

Local Abbreviation St := (state World).

Definition emit (e : event) : M St unit :=
  fun s => (Ok tt, mkState (world s) (trace s ++ [e])).

Definition print (text : string) : M St unit := emit (EvPrint text).

Definition http_get (target : string) (params : list (string * json))
  : M St response :=
  emit (EvGet target params) ;;
  (fun s => let (r, w) := requests_get ext target params (world s) in
            (r, mkState w (trace s))).

(** [ac.plot(series)] *)
Definition plot (series : json) : M St string :=
  emit (EvPlot series) ;; lift (ac_plot ext series).

Definition query (lat lon : float) : list (string * json) :=
  [("latitude", JFloat lat);
   ("longitude", JFloat lon);
   ("hourly", JStr "temperature_2m,relative_humidity_2m");
   ("forecast_days", JInt 1);
   ("timezone", JStr "auto")].

(** The body of the [for] loop. *)
Definition report (city : string) (lat lon : float) : M St unit :=
  let params := query lat lon in
  r <- http_get url params ;;
  data <- lift (json_body r) ;;
  hourly <- lift (py_getitem data "hourly") ;;
  series <- lift (py_getitem hourly "temperature_2m") ;;
  temps <- lift (py_slice_to 24 series) ;;
  hourly <- lift (py_getitem data "hourly") ;;
  series <- lift (py_getitem hourly "relative_humidity_2m") ;;
  humidity <- lift (py_slice_to 24 series) ;;
  print separator ;;
  print (temperature_title city) ;;
  chart <- plot temps ;;
  print chart ;;
  print (humidity_title city) ;;
  chart <- plot humidity ;;
  print chart.

(** [for city, (lat, lon) in cs.items(): ...] *)
Fixpoint for_cities (cs : list (string * (float * float))) : M St unit :=
  match cs with
  | [] => ret tt
  | (city, (lat, lon)) :: rest => report city lat lon ;; for_cities rest
  end.

(** The module body. *)
Definition main : M St unit := for_cities cities.

End Script.

(** *** What the statements about the script speak of *)

(** The hourly series of one city's forecast and the charts drawn of their
    first 24 values. *)
Record sample : Type := mkSample {
  temperatures : list json;
  humidities : list json;
  temperature_chart : string;
  humidity_chart : string
}.

Section Expectation.
Context {World : Type}.
Variable ext : Externals World.

(** From world [w] the forecast service answers the query for
    [(lat, lon)] with the series of [f], each of at least 24 values,
    leaving world [w']; and the charting library draws the charts of [f]
    from the first 24 values of each series. *)
Definition served (w : World) (lat lon : float) (f : sample) (w' : World) : Prop :=
  exists r data hourly,
    requests_get ext url (query lat lon) w = (Ok r, w')
    /\ json_body r = Ok data
    /\ py_getitem data "hourly" = Ok hourly
    /\ py_getitem hourly "temperature_2m" = Ok (JList (temperatures f))
    /\ py_getitem hourly "relative_humidity_2m" = Ok (JList (humidities f))
    /\ (24 <= length (temperatures f))%nat
    /\ (24 <= length (humidities f))%nat
    /\ ac_plot ext (JList (firstn 24 (temperatures f))) = Ok (temperature_chart f)
    /\ ac_plot ext (JList (firstn 24 (humidities f))) = Ok (humidity_chart f).

End Expectation.

(** The lines of one city's block. *)
Definition city_block (city : string) (f : sample) : list string :=
  [separator; temperature_title city; temperature_chart f;
   humidity_title city; humidity_chart f].

(** The series of one city's two charts. *)
Definition city_series (f : sample) : list json :=
  [JList (firstn 24 (temperatures f)); JList (firstn 24 (humidities f))].

(** *** A scripted forecast service, for examples *)

(** Thirty hourly values counting up from [start]. *)
Definition thirty (start : Z) : list json :=
  map (fun n => JInt (start + Z.of_nat n)) (seq 0 30).

Definition forecast_body (t0 h0 : Z) : json :=
  JDict [("hourly",
          JDict [("time", JList []);
                 ("temperature_2m", JList (thirty t0));
                 ("relative_humidity_2m", JList (thirty h0))])].

Definition forecast_response (t0 h0 : Z) : result response :=
  Ok (mkResponse 200 "OK" url (Ok (forecast_body t0 h0))).

(** The chart of a series of integers, here its values in a row. *)
Definition row_chart (series : json) : result string :=
  match series with
  | JList l =>
      Ok (String.concat " "
            (map (fun v => match v with JInt z => string_of_Z z | _ => "?" end) l))
  | _ => Raise (mkExn TypeError "object of this type has no len()")
  end.

Definition scripted : Externals (list (result response)) :=
  mkExternals (list (result response))
    (fun _ _ w =>
       match w with
       | [] => (Raise (mkExn OtherException "Connection refused"), [])
       | r :: rest => (r, rest)
       end)
    row_chart.

Definition sample_of (t0 h0 : Z) : sample :=
  mkSample (thirty t0) (thirty h0)
    (String.concat " " (map (fun n => string_of_Z (t0 + Z.of_nat n)) (seq 0 24)))
    (String.concat " " (map (fun n => string_of_Z (h0 + Z.of_nat n)) (seq 0 24))).

End Weather.

(** ** States, traces and the vocabulary of the statements *)

Definition resource_calls (t : list event) : list event :=
  filter is_resource_call t.

Definition logged (t : list event) : list event :=
  filter is_log t.

(** The message is the one [call_claude_api]'s handler logs. *)
Definition is_model_failure (e : event) : bool :=
  match e with
  | EvLog msg => prefix "Claude API error: " msg
  | _ => false
  end.

(** The model calls made after the first logged failure of a model call. *)
Fixpoint calls_after_failure (t : list event) : list model_request :=
  match t with
  | [] => []
  | e :: rest =>
      if is_model_failure e then model_calls rest else calls_after_failure rest
  end.

(** [lookup_key k v] is [None] when [v] has no key [k]: it is no [dict], or
    a [dict] without it. *)
Definition lookup_key (k : string) (v : json) : option json :=
  match v with
  | JDict d => dict_lookup k d
  | _ => None
  end.

Definition or_default (default : json) (o : option json) : json :=
  match o with Some v => v | None => default end.

(** The request [get_access_token] posts. *)
Definition password_grant (cfg : config) : token_request :=
  mkTokenRequest (token_url cfg)
    [("grant_type", Some "password");
     ("username", username cfg);
     ("password", password cfg)]
    (client_id cfg, client_secret cfg).

Section Vocabulary.
Context {World : Type}.
Variable ext : Externals World.

Local Abbreviation St := (state World).

(** The state after [self.conversation_history.append(t)]. *)
Definition with_turn (t : turn) (s : St) : St :=
  mkState
    (mkClaudeChatbot (api_client (chatbot s))
       (conversation_history (chatbot s) ++ [t]))
    (world s) (trace s).

(** The state after the trace grew by [evs]. *)
Definition with_events (evs : list event) (s : St) : St :=
  mkState (chatbot s) (world s) (trace s ++ evs).

Definition history (s : St) : list turn := conversation_history (chatbot s).

(** [s'] is reached from [s] by events [evs], the chatbot untouched. *)
Definition reaches (evs : list event) (s s' : St) : Prop :=
  chatbot s' = chatbot s /\ trace s' = (trace s ++ evs)%list.

(** The request [call_claude_api] sends from state [s]. *)
Definition request_for (user_message : string) (api_data : json) (s : St)
  : model_request :=
  mkModelRequest "claude-sonnet-4-20250514" 1500
    (system_prompt_for ext user_message api_data)
    (build_messages (history s) user_message).

(** What each [except] clause logs. *)
Definition model_failure (e : exn) : event :=
  EvLog ("Claude API error: " ++ exn_str e).

Definition fetch_failure (e : exn) : event :=
  EvLog ("API fetch error: " ++ exn_str e).

Definition parse_failure (e : exn) : event :=
  match exn_type e with
  | JSONDecodeError | KeyError => EvLog ("JSON parsing error: " ++ exn_str e)
  | _ => EvLog ("API processing error: " ++ exn_str e)
  end.

Definition chat_failure (e : exn) : event :=
  EvLog ("Chat error: " ++ exn_str e).

(** The directive [process_message] follows on a phase-1 reply, if any: the
    reply decodes to a [dict] with a true ["needsAPI"] and an ["apiType"];
    ["params"] defaults to the empty [dict]. *)
Definition directive_of (claude_response : string) : option (json * json) :=
  match json_loads ext (str_strip ext claude_response) with
  | Ok (JDict d) =>
      if truthy (or_default JNull (dict_lookup "needsAPI" d)) then
        match dict_lookup "apiType" d with
        | Some api_type =>
            Some (api_type, or_default (JDict []) (dict_lookup "params" d))
        | None => None
        end
      else None
  | _ => None
  end.

(** The reply cannot be decoded, or what it decodes to lacks one of [keys]. *)
Definition lacks_a_key (keys : list string) (claude_response : string) : bool :=
  match json_loads ext (str_strip ext claude_response) with
  | Raise _ => true
  | Ok v =>
      existsb (fun k => match lookup_key k v with None => true | Some _ => false end)
        keys
  end.

(** [outcome], the result of [process_message user_message] from [s], is a
    direct answer with text [claude_response]: that text is returned, the
    log gains the user turn and that text as the assistant turn, the model
    was called once and the Resource Client not at all. *)
Definition direct_answer (user_message : string) (s : St) (claude_response : string)
    (outcome : result string * St) : Prop :=
  fst outcome = Ok claude_response
  /\ history (snd outcome)
     = (history s ++ [user_turn user_message; assistant_turn claude_response])%list
  /\ exists evs,
       trace (snd outcome) = (trace s ++ evs)%list
       /\ resource_calls evs = []
       /\ length (model_calls evs) = 1%nat.

(** What [fetch_external_data] returns, and the state it leaves, when its
    [try] block raised [e] in state [s1] while fetching [kind]. *)
Definition fetch_failed (kind : string) (e : exn) (s1 : St) : result json * St :=
  (Ok (error_object ("Failed to fetch " ++ kind ++ ": " ++ exn_str e)),
   with_events [fetch_failure e] s1).


(** The statuses of success: 2xx. *)
Definition success_status (code : Z) : bool :=
  (200 <=? code) && (code <? 300).

(** The statuses [raise_for_status] raises for. *)
Definition error_status (code : Z) : bool :=
  (400 <=? code) && (code <? 600).

(** A request body [chat] can read a message from: a [dict] whose
    ["message"], if any, is a string. *)
Definition readable_body (get_json : result json) : bool :=
  match get_json with
  | Ok (JDict d) =>
      match dict_lookup "message" d with
      | None | Some (JStr _) => true
      | Some _ => false
      end
  | _ => false
  end.

End Vocabulary.

(** ** A scripted world, for examples *)

Module Mock.

(** The outcomes the services will give, call after call. *)
Record World : Type := mkWorld {
  model_script : list (result string);
  post_script : list (result response);
  get_script : list (result response)
}.

Definition refused {A} : result A :=
  Raise (mkExn OtherException "Connection refused").

Definition next {A} (script : list (result A)) : result A * list (result A) :=
  match script with
  | [] => (refused, [])
  | r :: rest => (r, rest)
  end.

(** [str.isspace] on ASCII.  [strip] below agrees with [str.strip] on
    ASCII text only: the blanks beyond ASCII (U+0085, U+00A0, U+2003, ...)
    are left in place, so the examples use ASCII blanks. *)
Definition is_space (c : ascii) : bool :=
  let n := nat_of_ascii c in
  ((9 <=? n) && (n <=? 13) || (28 <=? n) && (n <=? 32))%nat.

Fixpoint lstrip (l : list ascii) : list ascii :=
  match l with
  | c :: l' => if is_space c then lstrip l' else l
  | [] => []
  end.

Definition strip (s : string) : string :=
  string_of_list_ascii (rev (lstrip (rev (lstrip (list_ascii_of_string s))))).

Definition key (k : string) : string := quote ++ k ++ quote.

(** [{"needsAPI": true, "apiType": "rooms", "params": {}}] *)
Definition rooms_directive : string :=
  "{" ++ key "needsAPI" ++ ": true, " ++ key "apiType" ++ ": " ++ key "rooms"
    ++ ", " ++ key "params" ++ ": {}}".

(** [{"needsAPI": true, "apiType": "schools"}] *)
Definition schools_directive : string :=
  "{" ++ key "needsAPI" ++ ": true, " ++ key "apiType" ++ ": " ++ key "schools" ++ "}".

(** [json.loads] on the texts of the examples; any other text is taken not
    to be JSON. *)
Definition loads (s : string) : result json :=
  if String.eqb s rooms_directive then
    Ok (JDict [("needsAPI", JBool true); ("apiType", JStr "rooms"); ("params", JDict [])])
  else if String.eqb s schools_directive then
    Ok (JDict [("needsAPI", JBool true); ("apiType", JStr "schools")])
  else
    Raise (mkExn JSONDecodeError "Expecting value: line 1 column 1 (char 0)").

(** [json.dumps(v, indent=2)] on a [dict] of one string, as the error
    objects are. *)
Definition dumps (v : json) : string :=
  match v with
  | JDict [(k, JStr text)] =>
      "{" ++ newline ++ "  " ++ key k ++ ": " ++ key text ++ newline ++ "}"
  | JNull => "null"
  | _ => "{}"
  end.

Definition repr (v : json) : string :=
  match v with
  | JNull => "None"
  | JBool true => "True"
  | JBool false => "False"
  | JInt z => string_of_Z z
  | _ => "..."
  end.

Definition ext : Externals World :=
  mkExternals World
    (fun _ w =>
       let (r, rest) := next (model_script w) in
       (r, mkWorld rest (post_script w) (get_script w)))
    (fun _ w =>
       let (r, rest) := next (post_script w) in
       (r, mkWorld (model_script w) rest (get_script w)))
    (fun _ _ w =>
       let (r, rest) := next (get_script w) in
       (r, mkWorld (model_script w) (post_script w) rest))
    loads dumps strip repr.

Definition cfg : config :=
  mkConfig (Some "alice") (Some "secret") (Some "app") (Some "app-secret")
    (Some "https://iot.example/token") (Some "https://iot.example/api").

(** A chatbot holding token ["t0"] and the turns [turns], in a world that
    will answer as scripted; nothing has happened yet. *)
Definition start (turns : list turn) (w : World) : state World :=
  mkState (mkClaudeChatbot (mkExternalAPIClient (JStr "t0")) turns) w [].

Definition replies (texts : list (result string)) : World :=
  mkWorld texts [] [].

Definition http_ok (v : json) : result response :=
  Ok (mkResponse 200 "OK" "https://iot.example/api" (Ok v)).

End Mock.

(** ** The endpoints of the Resource Client and the requests served *)

(** What the four client functions make of the outcome of [requests.get]:
    the failure of the request, else the [HTTPError] of an error status,
    else what [.json()] gives. *)
Definition response_value (outcome : result response) : result json :=
  match outcome with
  | Raise e => Raise e
  | Ok r =>
      match raise_for_status r with
      | Raise e => Raise e
      | Ok _ => json_body r
      end
  end.

(** A kind of resource that needs a parameter: the key [fetch_external_data]
    reads it from, the message it gives without it, and the path of the
    resource around the parameter. *)
Record requirement : Type := mkRequirement {
  req_kind : string;
  req_key : string;
  req_message : string;
  req_prefix : string;
  req_suffix : string
}.

Definition requirements : list requirement :=
  [mkRequirement "rooms" "school_uuid"
     "School UUID required for fetching rooms" "/group/" "/subgroup/3";
   mkRequirement "sensors" "room_uuid"
     "Room UUID required for fetching sensors" "/group/" "/resource";
   mkRequirement "values" "sensor_uuid"
     "Sensor UUID required for fetching values" "/resource/" "/latest"].

Definition is_dict (v : json) : bool :=
  match v with JDict _ => true | _ => false end.

(** The history is a sequence of exchanges: a user turn, then an assistant
    turn. *)
Fixpoint exchanges (h : list turn) : bool :=
  match h with
  | [] => true
  | u :: rest =>
      match rest with
      | [] => false
      | a :: rest' =>
          String.eqb (role u) "user" && String.eqb (role a) "assistant"
            && exchanges rest'
      end
  end.

(** The requests that touch the chatbot: [POST /api/chat] with the outcome
    of [request.get_json()], and [POST /api/clear]. *)
Inductive request : Type :=
| Chat (get_json : result json)
| Clear.

Section Serving.
Context {World : Type}.
Variable ext : Externals World.
Variable cfg : config.

Local Abbreviation St := (state World).

(** The route of a request. *)
Definition handle (req : request) : M St http_reply :=
  match req with
  | Chat get_json => chat ext cfg get_json
  | Clear => clear_conversation ext cfg
  end.

(** The state after a sequence of requests; a request whose handler raised
    is answered by Flask and leaves the state where the handler left it. *)
Definition serve (reqs : list request) (s : St) : St :=
  fold_left (fun s' req => snd (handle req s')) reqs s.

(** The [Authorization] header of the chatbot's client. *)
Definition bearer (s : St) : string :=
  "Bearer " ++ py_str ext (token (api_client (chatbot s))).

(** The URL of a resource that needs the parameter [uuid]. *)
Definition resource_url (r : requirement) (uuid : json) : string :=
  fmt_opt (api_url cfg) ++ req_prefix r ++ py_str ext uuid ++ req_suffix r.

Definition schools_url : string := fmt_opt (api_url cfg) ++ "/group/main".

End Serving.

(** The queries the weather script sent. *)
Definition weather_queries (t : list Weather.event) : list (list (string * json)) :=
  flat_map (fun e => match e with Weather.EvGet _ q => [q] | _ => [] end) t.

Definition query_of (city : string * (float * float)) : list (string * json) :=
  Weather.query (fst (snd city)) (snd (snd city)).

(** The blocks of the cities [cs], whose samples are [fs]. *)
Definition city_blocks (cs : list (string * (float * float)))
    (fs : list Weather.sample) : list string :=
  flat_map (fun cf => Weather.city_block (fst (fst cf)) (snd cf)) (combine cs fs).

Section Forecasts.
Context {World : Type}.
Variable ext : Weather.Externals World.

(** From world [w] the forecast service answers for the cities [cs], one
    after the other, with the samples [fs], and is left in world [w']. *)
Fixpoint served_in_turn (w : World) (cs : list (string * (float * float)))
    (fs : list Weather.sample) (w' : World) : Prop :=
  match cs, fs with
  | [], [] => w' = w
  | city :: cs', f :: fs' =>
      exists w1,
        Weather.served ext w (fst (snd city)) (snd (snd city)) f w1
        /\ served_in_turn w1 cs' fs' w'
  | _, _ => False
  end.

End Forecasts.

(** ** A scripted world that decodes a few more texts *)

Module MoreMock.

(** [{"needsAPI": false, "apiType": "schools"}] *)
Definition declined_directive : string :=
  "{" ++ Mock.key "needsAPI" ++ ": false, " ++ Mock.key "apiType" ++ ": "
    ++ Mock.key "schools" ++ "}".

Definition loads (s : string) : result json :=
  if String.eqb s declined_directive then
    Ok (JDict [("needsAPI", JBool false); ("apiType", JStr "schools")])
  else Mock.loads s.

Definition ext : Externals Mock.World :=
  mkExternals Mock.World
    (messages_create Mock.ext) (requests_post Mock.ext) (requests_get Mock.ext)
    loads Mock.dumps Mock.strip Mock.repr.

Definition http_status (code : Z) (why target : string) : result response :=
  Ok (mkResponse code why target (Ok (JDict [("detail", JStr why)]))).

End MoreMock.

(** Runs the monadic definitions of the chatbot as far as the state is known;
    string constants are left as they are. *)
Ltac run_m :=
  cbv beta iota zeta delta
    [M ret raise bind lift try_except
     emit logger_error call_world anthropic_create http_post http_get
     get_self set_self history_append self_token
     call_claude_api];
  cbn [chatbot world trace api_client conversation_history token fst snd].

(** * Properties of the chatbot *)

Section AssistantFacts.
Context {World : Type}.
Variable ext : Externals World.
Variable cfg : config.

Local Abbreviation St := (state World).

Lemma reaches_refl (s : St) : reaches [] s s.
Proof. split; [reflexivity | now rewrite app_nil_r]. Qed.

Lemma reaches_trans evs1 evs2 (s1 s2 s3 : St) :
  reaches evs1 s1 s2 -> reaches evs2 s2 s3 -> reaches (evs1 ++ evs2)%list s1 s3.
Proof.
  intros [Hc1 Ht1] [Hc2 Ht2]. split.
  - now rewrite Hc2.
  - now rewrite Ht2, Ht1, app_assoc.
Qed.

Lemma history_append_run t (s : St) :
  history_append t s = (Ok tt, with_turn t s).
Proof. reflexivity. Qed.

Lemma logger_error_run msg (s : St) :
  logger_error msg s = (Ok tt, with_events [EvLog msg] s).
Proof. reflexivity. Qed.

(** ** The model call *)

(** [call_claude_api] calls the model once and always returns a text:
    the model's, or the fixed apology when the call raised. *)
Lemma call_claude_api_run user_message api_data s :
  call_claude_api ext user_message api_data s =
    let req := request_for ext user_message api_data s in
    match messages_create ext req (world s) with
    | (Ok text, w) =>
        (Ok text, mkState (chatbot s) w (trace s ++ [EvModel req]))
    | (Raise e, w) =>
        (Ok SORRY,
         mkState (chatbot s) w (trace s ++ [EvModel req; model_failure e]))
    end.
Proof.
  run_m.
  destruct (messages_create ext _ (world s)) as [[text | e] w]; run_m.
  - reflexivity.
  - unfold model_failure. now rewrite <- app_assoc.
Qed.

Lemma call_claude_api_total user_message api_data s :
  exists text s' evs,
    call_claude_api ext user_message api_data s = (Ok text, s')
    /\ reaches (EvModel (request_for ext user_message api_data s) :: evs) s s'
    /\ (evs = [] \/ exists e, evs = [model_failure e] /\ text = SORRY).
Proof.
  rewrite call_claude_api_run. cbv zeta.
  destruct (messages_create ext _ (world s)) as [[text | e] w].
  - exists text, (mkState (chatbot s) w (trace s ++ [EvModel (request_for ext user_message api_data s)])), [].
    repeat split; auto.
  - eexists SORRY, _, [model_failure e].
    repeat split; eauto.
Qed.

(** ** The Resource Client *)

(** One GET, the chatbot untouched, whatever the outcome. *)
Lemma authorized_get_run access_token target (s : St) :
  exists r s',
    authorized_get ext access_token target s = (r, s')
    /\ reaches [EvGet target ("Bearer " ++ py_str ext access_token)] s s'.
Proof.
  unfold authorized_get. run_m.
  destruct (requests_get ext _ _ (world s)) as [[resp | e] w]; run_m.
  - destruct (raise_for_status resp); run_m.
    + destruct (json_body resp); eexists _, _; split; try reflexivity;
        split; reflexivity.
    + eexists _, _; split; try reflexivity; split; reflexivity.
  - eexists _, _; split; try reflexivity; split; reflexivity.
Qed.

(** The [try] block of [fetch_external_data] makes at most one GET and
    leaves the chatbot alone. *)
Lemma fetch_block_run api_type params (s : St) :
  exists r s' evs,
    fetch_block ext cfg api_type params s = (r, s')
    /\ reaches evs s s'
    /\ (evs = [] \/ exists target authorization, evs = [EvGet target authorization]).
Proof.
  assert (Hget : forall target,
             exists r s' evs,
               authorized_get ext (token (api_client (chatbot s))) target s = (r, s')
               /\ reaches evs s s'
               /\ (evs = [] \/ exists t a, evs = [EvGet t a])).
  { intros target.
    destruct (authorized_get_run (token (api_client (chatbot s))) target s)
      as (r & s' & Hrun & Hreach).
    exists r, s', [EvGet target ("Bearer " ++ py_str ext (token (api_client (chatbot s))))].
    repeat split; try apply Hreach; eauto. }
  assert (Hret : forall v : json,
             exists r s' evs,
               (Ok v, s) = (r, s') /\ reaches evs s s'
               /\ (evs = [] \/ exists t a, evs = [EvGet t a])).
  { intros v. exists (Ok v), s, [].
    split; [reflexivity | split; [apply reaches_refl | now left]]. }
  assert (Hraise : forall e : exn,
             exists (r : result json) s' evs,
               (Raise e, s) = (r, s') /\ reaches evs s s'
               /\ (evs = [] \/ exists t a, evs = [EvGet t a])).
  { intros e. exists (Raise e), s, [].
    split; [reflexivity | split; [apply reaches_refl | now left]]. }
  unfold fetch_block.
  destruct (eq_str api_type "schools").
  { unfold fetch_schools, get_schools. run_m. apply Hget. }
  destruct (eq_str api_type "rooms").
  { unfold fetch_rooms, get_school_rooms. run_m.
    destruct (py_get params "school_uuid" JNull) as [v | e]; [| apply Hraise].
    destruct (negb (truthy v)); run_m; [apply Hret | apply Hget]. }
  destruct (eq_str api_type "sensors").
  { unfold fetch_sensors, get_room_sensors. run_m.
    destruct (py_get params "room_uuid" JNull) as [v | e]; [| apply Hraise].
    destruct (negb (truthy v)); run_m; [apply Hret | apply Hget]. }
  destruct (eq_str api_type "values").
  { unfold fetch_sensor_value, get_sensor_latest_value. run_m.
    destruct (py_get params "sensor_uuid" JNull) as [v | e]; [| apply Hraise].
    destruct (negb (truthy v)); run_m; [apply Hret | apply Hget]. }
  run_m. apply Hret.
Qed.

(** What [fetch_external_data] makes of its [try] block. *)
Lemma fetch_external_data_run api_type params (s : St) :
  fetch_external_data ext cfg api_type params s =
    match fetch_block ext cfg api_type params s with
    | (Ok v, s') => (Ok v, s')
    | (Raise e, s') =>
        (Ok (error_object
               ("Failed to fetch " ++ py_str ext api_type ++ ": " ++ exn_str e)),
         with_events [fetch_failure e] s')
    end.
Proof.
  unfold fetch_external_data. run_m.
  destruct (fetch_block ext cfg api_type params s) as [[v | e] s']; reflexivity.
Qed.

Lemma fetch_failure_is_no_model_failure e :
  is_model_failure (fetch_failure e) = false.
Proof. reflexivity. Qed.

Lemma parse_failure_is_log e :
  is_log (parse_failure e) = true
  /\ is_model_call (parse_failure e) = false
  /\ is_resource_call (parse_failure e) = false
  /\ is_model_failure (parse_failure e) = false
  /\ model_calls [parse_failure e] = [].
Proof. unfold parse_failure. destruct (exn_type e); repeat split. Qed.

(** [fetch_external_data] always returns a value; it calls no model and
    logs no model failure. *)
Lemma fetch_external_data_total api_type params (s : St) :
  exists v s' evs,
    fetch_external_data ext cfg api_type params s = (Ok v, s')
    /\ reaches evs s s'
    /\ model_calls evs = []
    /\ existsb is_model_failure evs = false.
Proof.
  rewrite fetch_external_data_run.
  destruct (fetch_block_run api_type params s) as (r & s' & evs & Hrun & Hreach & Hevs).
  rewrite Hrun.
  assert (Hm : model_calls evs = [] /\ existsb is_model_failure evs = false).
  { destruct Hevs as [-> | (t & a & ->)]; split; reflexivity. }
  destruct Hm as [Hm Hf].
  destruct r as [v | e].
  - exists v, s', evs. auto.
  - eexists _, _, (evs ++ [fetch_failure e])%list.
    split; [reflexivity |]. split; [| split].
    + destruct Hreach as [Hc Ht]. split; [exact Hc |].
      cbn [with_events trace]. now rewrite Ht, app_assoc.
    + unfold model_calls in *. now rewrite flat_map_app, Hm.
    + now rewrite existsb_app, Hf.
Qed.

(** ** The directive *)

Lemma directive_handler_run e (s : St) :
  directive_handler e s = (Ok None, with_events [parse_failure e] s).
Proof.
  unfold directive_handler, parse_failure.
  destruct (exn_type e); reflexivity.
Qed.

(** The [try] statement of [process_message], case by case. *)
Lemma directive_run user_message claude_response (s1 : St) :
  try_except (directive_block ext cfg user_message claude_response)
    directive_handler s1 =
    match json_loads ext (str_strip ext claude_response) with
    | Raise e => (Ok None, with_events [parse_failure e] s1)
    | Ok parsed =>
        match py_get parsed "needsAPI" JNull with
        | Raise e => (Ok None, with_events [parse_failure e] s1)
        | Ok needs =>
            if truthy needs then
              match py_getitem parsed "apiType" with
              | Raise e => (Ok None, with_events [parse_failure e] s1)
              | Ok api_type =>
                  match py_get parsed "params" (JDict []) with
                  | Raise e => (Ok None, with_events [parse_failure e] s1)
                  | Ok params =>
                      match fetch_external_data ext cfg api_type params s1 with
                      | (Raise e, s2) => (Ok None, with_events [parse_failure e] s2)
                      | (Ok api_data, s2) =>
                          match call_claude_api ext user_message api_data s2 with
                          | (Raise e, s3) => (Ok None, with_events [parse_failure e] s3)
                          | (Ok final_response, s3) =>
                              (Ok (Some final_response),
                               with_turn (assistant_turn final_response) s3)
                          end
                      end
                  end
              end
            else (Ok None, s1)
        end
    end.
Proof.
  unfold directive_block.
  cbv beta iota zeta delta [try_except bind lift ret].
  destruct (json_loads ext (str_strip ext claude_response)) as [parsed | e];
    [| apply directive_handler_run].
  destruct (py_get parsed "needsAPI" JNull) as [needs | e];
    [| apply directive_handler_run].
  destruct (truthy needs); [| reflexivity].
  destruct (py_getitem parsed "apiType") as [api_type | e];
    [| apply directive_handler_run].
  destruct (py_get parsed "params" (JDict [])) as [params | e];
    [| apply directive_handler_run].
  destruct (fetch_external_data ext cfg api_type params s1) as [[api_data | e] s2];
    [| apply directive_handler_run].
  destruct (call_claude_api ext user_message api_data s2) as [[final_response | e] s3];
    [| apply directive_handler_run].
  reflexivity.
Qed.

(** Without a directive the [try] statement returns nothing and logs at
    most one message. *)
Lemma directive_declined user_message claude_response (s1 : St) :
  directive_of ext claude_response = None ->
  exists s2 logs,
    try_except (directive_block ext cfg user_message claude_response)
      directive_handler s1 = (Ok None, s2)
    /\ reaches logs s1 s2
    /\ world s2 = world s1
    /\ (logs = [] \/ exists e, logs = [parse_failure e]).
Proof.
  intros Hnone. rewrite directive_run. unfold directive_of in Hnone.
  assert (Hlog : forall e,
             exists s2 logs,
               (Ok (@None string), with_events [parse_failure e] s1) = (Ok None, s2)
               /\ reaches logs s1 s2 /\ world s2 = world s1
               /\ (logs = [] \/ exists e', logs = [parse_failure e'])).
  { intros e. exists (with_events [parse_failure e] s1), [parse_failure e].
    repeat split; eauto. }
  assert (Hquiet :
             exists s2 logs,
               (Ok (@None string), s1) = (Ok None, s2)
               /\ reaches logs s1 s2 /\ world s2 = world s1
               /\ (logs = [] \/ exists e', logs = [parse_failure e'])).
  { exists s1, []. split; [reflexivity |].
    split; [apply reaches_refl | auto]. }
  destruct (json_loads ext (str_strip ext claude_response)) as [parsed | e];
    [| apply Hlog].
  destruct parsed as [| b | z | f | str | l | d]; try apply Hlog.
  cbn [py_get py_getitem].
  unfold or_default in Hnone.
  destruct (truthy match dict_lookup "needsAPI" d with Some x => x | None => JNull end);
    [| apply Hquiet].
  destruct (dict_lookup "apiType" d); [discriminate | apply Hlog].
Qed.

(** With a directive the [try] statement fetches, asks the model again and
    returns that answer. *)
Lemma directive_followed user_message claude_response api_type params (s1 : St) :
  directive_of ext claude_response = Some (api_type, params) ->
  exists api_data s2 final_response s3,
    fetch_external_data ext cfg api_type params s1 = (Ok api_data, s2)
    /\ call_claude_api ext user_message api_data s2 = (Ok final_response, s3)
    /\ try_except (directive_block ext cfg user_message claude_response)
         directive_handler s1
       = (Ok (Some final_response), with_turn (assistant_turn final_response) s3).
Proof.
  intros Hsome. rewrite directive_run. unfold directive_of in Hsome.
  destruct (json_loads ext (str_strip ext claude_response)) as [parsed | e];
    [| discriminate].
  destruct parsed as [| b | z | f | str | l | d]; try discriminate.
  cbn [py_get py_getitem]. unfold or_default in Hsome.
  destruct (truthy match dict_lookup "needsAPI" d with Some x => x | None => JNull end);
    [| discriminate].
  destruct (dict_lookup "apiType" d) as [t |]; [| discriminate].
  injection Hsome as -> <-.
  destruct (fetch_external_data_total api_type
              match dict_lookup "params" d with Some x => x | None => JDict [] end s1)
    as (api_data & s2 & evs & Hfetch & _).
  destruct (call_claude_api_total user_message api_data s2)
    as (final_response & s3 & evs' & Hcall & _).
  exists api_data, s2, final_response, s3.
  rewrite Hfetch, Hcall. auto.
Qed.

(** ** [process_message] *)

Lemma process_message_run user_message (s : St) :
  process_message ext cfg user_message s =
    match call_claude_api ext user_message JNull
            (with_turn (user_turn user_message) s) with
    | (Raise e, s1) => (Raise e, s1)
    | (Ok claude_response, s1) =>
        match try_except (directive_block ext cfg user_message claude_response)
                directive_handler s1 with
        | (Raise e, s2) => (Raise e, s2)
        | (Ok (Some final_response), s2) => (Ok final_response, s2)
        | (Ok None, s2) =>
            (Ok claude_response, with_turn (assistant_turn claude_response) s2)
        end
    end.
Proof.
  unfold process_message.
  cbv beta iota zeta delta [bind]. rewrite history_append_run.
  fold (user_turn user_message).
  destruct (call_claude_api ext user_message JNull _) as [[claude_response | e] s1];
    [| reflexivity].
  destruct (try_except _ _ s1) as [[[final_response |] | e] s2]; reflexivity.
Qed.

(** Everything [process_message] does, in the order it does it. *)
Lemma process_message_shape user_message (s : St) :
  let s0 := with_turn (user_turn user_message) s in
  exists claude_response s1 evs1,
    call_claude_api ext user_message JNull s0 = (Ok claude_response, s1)
    /\ reaches (EvModel (request_for ext user_message JNull s0) :: evs1) s0 s1
    /\ (evs1 = [] \/ exists e, evs1 = [model_failure e] /\ claude_response = SORRY)
    /\ match directive_of ext claude_response with
       | None =>
           exists s2 logs,
             process_message ext cfg user_message s
             = (Ok claude_response, with_turn (assistant_turn claude_response) s2)
             /\ reaches logs s1 s2
             /\ (logs = [] \/ exists e, logs = [parse_failure e])
       | Some (api_type, params) =>
           exists api_data s2 fetched final_response s3 evs2,
             fetch_external_data ext cfg api_type params s1 = (Ok api_data, s2)
             /\ reaches fetched s1 s2
             /\ model_calls fetched = []
             /\ existsb is_model_failure fetched = false
             /\ call_claude_api ext user_message api_data s2 = (Ok final_response, s3)
             /\ reaches (EvModel (request_for ext user_message api_data s2) :: evs2) s2 s3
             /\ (evs2 = [] \/ exists e, evs2 = [model_failure e] /\ final_response = SORRY)
             /\ process_message ext cfg user_message s
                = (Ok final_response, with_turn (assistant_turn final_response) s3)
       end.
Proof.
  intros s0.
  destruct (call_claude_api_total user_message JNull s0)
    as (claude_response & s1 & evs1 & Hcall & Hreach & Hevs1).
  exists claude_response, s1, evs1.
  split; [exact Hcall |]. split; [exact Hreach |]. split; [exact Hevs1 |].
  rewrite process_message_run. fold s0. rewrite Hcall.
  destruct (directive_of ext claude_response) as [[api_type params] |] eqn:Hdir.
  - destruct (directive_followed user_message claude_response api_type params s1 Hdir)
      as (api_data & s2 & final_response & s3 & Hfetch & Hcall2 & Htry).
    destruct (fetch_external_data_total api_type params s1)
      as (v & s2' & fetched & Hfetch' & Hreach2 & Hm & Hf).
    rewrite Hfetch in Hfetch'. injection Hfetch' as <- <-.
    destruct (call_claude_api_total user_message api_data s2)
      as (text & s3' & evs2 & Hcall2' & Hreach3 & Hevs2).
    rewrite Hcall2 in Hcall2'. injection Hcall2' as <- <-.
    exists api_data, s2, fetched, final_response, s3, evs2.
    rewrite Htry. repeat (split; [assumption |]). reflexivity.
  - destruct (directive_declined user_message claude_response s1 Hdir)
      as (s2 & logs & Htry & Hreach2 & _ & Hlogs).
    exists s2, logs. rewrite Htry. auto.
Qed.

Lemma history_with_turn t (s : St) :
  history (with_turn t s) = (history s ++ [t])%list.
Proof. reflexivity. Qed.

Lemma reaches_history evs (s s' : St) :
  reaches evs s s' -> history s' = history s.
Proof. intros [Hc _]. unfold history. now rewrite Hc. Qed.

Lemma model_calls_app t1 t2 :
  model_calls (t1 ++ t2) = (model_calls t1 ++ model_calls t2)%list.
Proof. apply flat_map_app. Qed.

Lemma resource_calls_app t1 t2 :
  resource_calls (t1 ++ t2) = (resource_calls t1 ++ resource_calls t2)%list.
Proof. apply filter_app. Qed.

(** What a turn leaves in the history, whichever path it took. *)
Lemma turn_leaves_one_exchange user_message (s : St) :
  exists r s',
    process_message ext cfg user_message s = (Ok r, s')
    /\ history s' = (history s ++ [user_turn user_message; assistant_turn r])%list.
Proof.
  destruct (process_message_shape user_message s)
    as (claude_response & s1 & evs1 & Hcall & Hreach1 & _ & Hrest).
  apply reaches_history in Hreach1. rewrite history_with_turn in Hreach1.
  destruct (directive_of ext claude_response) as [[api_type params] |].
  - destruct Hrest
      as (api_data & s2 & fetched & final_response & s3 & evs2
          & Hfetch & Hreach2 & _ & _ & Hcall2 & Hreach3 & _ & Hrun).
    exists final_response, (with_turn (assistant_turn final_response) s3).
    split; [exact Hrun |].
    rewrite history_with_turn.
    rewrite (reaches_history _ _ _ Hreach3), (reaches_history _ _ _ Hreach2), Hreach1.
    now rewrite <- app_assoc.
  - destruct Hrest as (s2 & logs & Hrun & Hreach2 & _).
    exists claude_response, (with_turn (assistant_turn claude_response) s2).
    split; [exact Hrun |].
    rewrite history_with_turn, (reaches_history _ _ _ Hreach2), Hreach1.
    now rewrite <- app_assoc.
Qed.

(** ** The claims about [process_message] *)

(** C2. Every call of [process_message] returns, and appends to the
    conversation history exactly the user turn and one assistant turn: the
    phase-1 reply when that reply carries no directive, the phase-2 answer
    when it carries one.  The text returned is the text appended. *)
Theorem process_message_appends_one_exchange user_message (s : St) :
  exists claude_response s1,
    call_claude_api ext user_message JNull (with_turn (user_turn user_message) s)
    = (Ok claude_response, s1)
    /\ match directive_of ext claude_response with
       | None =>
           exists s',
             process_message ext cfg user_message s = (Ok claude_response, s')
             /\ history s'
                = (history s
                     ++ [user_turn user_message; assistant_turn claude_response])%list
       | Some (api_type, params) =>
           exists api_data s2 final_response s3 s',
             fetch_external_data ext cfg api_type params s1 = (Ok api_data, s2)
             /\ call_claude_api ext user_message api_data s2 = (Ok final_response, s3)
             /\ process_message ext cfg user_message s = (Ok final_response, s')
             /\ history s'
                = (history s
                     ++ [user_turn user_message; assistant_turn final_response])%list
       end.
Proof.
  destruct (process_message_shape user_message s)
    as (claude_response & s1 & evs1 & Hcall & Hreach1 & _ & Hrest).
  exists claude_response, s1. split; [exact Hcall |].
  apply reaches_history in Hreach1. rewrite history_with_turn in Hreach1.
  destruct (directive_of ext claude_response) as [[api_type params] |].
  - destruct Hrest
      as (api_data & s2 & fetched & final_response & s3 & evs2
          & Hfetch & Hreach2 & _ & _ & Hcall2 & Hreach3 & _ & Hrun).
    exists api_data, s2, final_response, s3, (with_turn (assistant_turn final_response) s3).
    repeat (split; [assumption |]).
    rewrite history_with_turn.
    rewrite (reaches_history _ _ _ Hreach3), (reaches_history _ _ _ Hreach2), Hreach1.
    now rewrite <- app_assoc.
  - destruct Hrest as (s2 & logs & Hrun & Hreach2 & _).
    exists (with_turn (assistant_turn claude_response) s2).
    split; [exact Hrun |].
    rewrite history_with_turn, (reaches_history _ _ _ Hreach2), Hreach1.
    now rewrite <- app_assoc.
Qed.

(** C3. When the phase-1 reply decodes to an object with ["needsAPI"] true,
    ["apiType"] ["rooms"] and empty ["params"], [fetch_external_data]
    returns the object [{"error": "School UUID required for fetching rooms"}]
    without touching the world, that object is the [api_data] of the second
    model call (it is what the formatting prompt embeds), and the whole turn
    issues no request to the Resource Client. *)
Theorem rooms_without_school_uuid_is_not_fetched
    user_message (s : St) claude_response s1 d :
  call_claude_api ext user_message JNull (with_turn (user_turn user_message) s)
  = (Ok claude_response, s1) ->
  json_loads ext (str_strip ext claude_response) = Ok (JDict d) ->
  dict_lookup "needsAPI" d = Some (JBool true) ->
  dict_lookup "apiType" d = Some (JStr "rooms") ->
  dict_lookup "params" d = Some (JDict []) ->
  let api_data := error_object "School UUID required for fetching rooms" in
  exists final_response s2 evs,
    fetch_external_data ext cfg (JStr "rooms") (JDict []) s1 = (Ok api_data, s1)
    /\ call_claude_api ext user_message api_data s1 = (Ok final_response, s2)
    /\ process_message ext cfg user_message s
       = (Ok final_response, with_turn (assistant_turn final_response) s2)
    /\ trace s2 = (trace s ++ evs)%list
    /\ resource_calls evs = []
    /\ model_calls evs
       = [request_for ext user_message JNull (with_turn (user_turn user_message) s);
          request_for ext user_message api_data s1]
    /\ system (request_for ext user_message api_data s1)
       = FORMAT_PROMPT user_message (json_dumps_indent2 ext api_data).
Proof.
  intros Hcall Hloads Hneeds Htype Hparams api_data.
  assert (Hdir : directive_of ext claude_response = Some (JStr "rooms", JDict [])).
  { unfold directive_of. now rewrite Hloads, Hneeds, Htype, Hparams. }
  destruct (process_message_shape user_message s)
    as (r1 & s1' & evs1 & Hcall' & Hreach1 & Hevs1 & Hrest).
  cbv zeta in Hcall'. rewrite Hcall in Hcall'. injection Hcall' as <- <-.
  rewrite Hdir in Hrest.
  destruct Hrest
    as (data & s2' & fetched & final_response & s2 & evs2
        & Hfetch & _ & _ & _ & Hcall2 & Hreach3 & Hevs2 & Hrun).
  assert (Hfetch0 : fetch_external_data ext cfg (JStr "rooms") (JDict []) s1
                    = (Ok api_data, s1)) by reflexivity.
  rewrite Hfetch0 in Hfetch. injection Hfetch as <- <-.
  exists final_response, s2, ((EvModel (request_for ext user_message JNull
                                         (with_turn (user_turn user_message) s)) :: evs1)
                               ++ EvModel (request_for ext user_message api_data s1) :: evs2)%list.
  repeat (split; [assumption |]).
  destruct Hreach1 as [_ Ht1]. destruct Hreach3 as [_ Ht3].
  cbn [with_turn trace] in Ht1.
  split; [now rewrite Ht3, Ht1, <- app_assoc |].
  split; [| split; [| reflexivity]].
  - destruct Hevs1 as [-> | (e1 & -> & _)], Hevs2 as [-> | (e2 & -> & _)]; reflexivity.
  - destruct Hevs1 as [-> | (e1 & -> & _)], Hevs2 as [-> | (e2 & -> & _)]; reflexivity.
Qed.

(** C4, amended. When the phase-1 reply cannot be decoded, or decodes to a
    value without a ["needsAPI"] key or without an ["apiType"] key, it is a
    direct answer: [process_message] returns it, the conversation log gains
    the user turn and that text verbatim as the assistant turn, the model is
    called once and the Resource Client never. *)
Theorem reply_without_directive_is_direct_answer
    user_message (s : St) claude_response s1 :
  call_claude_api ext user_message JNull (with_turn (user_turn user_message) s)
  = (Ok claude_response, s1) ->
  lacks_a_key ext ["needsAPI"; "apiType"] claude_response = true ->
  direct_answer user_message s claude_response
    (process_message ext cfg user_message s).
Proof.
  intros Hcall Hlacks.
  assert (Hdir : directive_of ext claude_response = None).
  { unfold lacks_a_key in Hlacks. unfold directive_of.
    destruct (json_loads ext (str_strip ext claude_response)) as [v | e];
      [| reflexivity].
    destruct v as [| b | z | f | str | l | d]; try reflexivity.
    cbn [existsb lookup_key] in Hlacks.
    destruct (dict_lookup "needsAPI" d); [| reflexivity].
    destruct (dict_lookup "apiType" d); [discriminate |].
    now destruct (truthy _). }
  destruct (process_message_shape user_message s)
    as (r1 & s1' & evs1 & Hcall' & Hreach1 & Hevs1 & Hrest).
  cbv zeta in Hcall'. rewrite Hcall in Hcall'. injection Hcall' as <- <-.
  rewrite Hdir in Hrest. destruct Hrest as (s2 & logs & Hrun & Hreach2 & Hlogs).
  unfold direct_answer. rewrite Hrun. cbn [fst snd].
  split; [reflexivity |]. split.
  - rewrite history_with_turn, (reaches_history _ _ _ Hreach2),
      (reaches_history _ _ _ Hreach1), history_with_turn.
    now rewrite <- app_assoc.
  - exists ((EvModel (request_for ext user_message JNull
                        (with_turn (user_turn user_message) s)) :: evs1) ++ logs)%list.
    destruct Hreach1 as [_ Ht1]. destruct Hreach2 as [_ Ht2].
    cbn [with_turn trace] in *.
    split; [now rewrite Ht2, Ht1, <- app_assoc |].
    destruct Hevs1 as [-> | (e1 & -> & _)], Hlogs as [-> | (e2 & ->)];
      cbn [app]; unfold resource_calls, model_calls; cbn [filter flat_map is_resource_call model_failure app];
      try (destruct (parse_failure_is_log e2) as (_ & _ & Hr & _ & Hm);
           unfold model_calls in Hm; cbn [flat_map] in Hm; rewrite ?app_nil_r in Hm;
           rewrite ?Hr, ?Hm);
      split; reflexivity.
Qed.

Lemma model_failure_is_model_failure e :
  is_model_failure (model_failure e) = true.
Proof.
  unfold is_model_failure, model_failure.
  change ("Claude API error: " ++ exn_str e)
    with ("Claude API error: " ++ ("" ++ exn_str e)).
  generalize (exn_str e). intros msg.
  repeat (cbn [append prefix]; destruct (ascii_dec _ _) as [_ | Hne];
          [| now elim Hne]).
  now destruct msg.
Qed.

Lemma calls_after_failure_app t1 t2 :
  existsb is_model_failure t1 = false ->
  calls_after_failure (t1 ++ t2) = calls_after_failure t2.
Proof.
  induction t1 as [| e t1 IH]; cbn [existsb app calls_after_failure]; [reflexivity |].
  intros H. apply orb_false_iff in H as [He Ht]. rewrite He. now apply IH.
Qed.

Lemma calls_after_failure_quiet t :
  existsb is_model_failure t = false -> calls_after_failure t = [].
Proof.
  intros H. rewrite <- (app_nil_r t). now rewrite calls_after_failure_app.
Qed.

(** A turn returns, and only adds to the trace. *)
Lemma process_message_extends_the_trace user_message (s : St) :
  exists r s' evs,
    process_message ext cfg user_message s = (Ok r, s')
    /\ trace s' = (trace s ++ evs)%list.
Proof.
  destruct (process_message_shape user_message s)
    as (r1 & s1 & evs1 & _ & [_ Ht1] & _ & Hrest).
  cbn [with_turn trace] in Ht1.
  destruct (directive_of ext r1) as [[api_type params] |].
  - destruct Hrest
      as (api_data & s2 & fetched & r2 & s3 & evs2
          & _ & [_ Ht2] & _ & _ & _ & [_ Ht3] & _ & Hrun).
    eexists _, _, _. split; [exact Hrun |].
    cbn [with_turn trace]. rewrite Ht3, Ht2, Ht1, <- !app_assoc. reflexivity.
  - destruct Hrest as (s2 & logs & Hrun & [_ Ht2] & _).
    eexists _, _, _. split; [exact Hrun |].
    cbn [with_turn trace]. rewrite Ht2, Ht1, <- !app_assoc. reflexivity.
Qed.

(** What the trace of a turn that returned tells: if it holds the message
    [call_claude_api] logs for a failed model call, the text returned is the
    apology; no model call follows such a message; there are at most two
    model calls. *)
Lemma logged_model_failure_ends_the_calls user_message (s : St) r s' evs :
  is_Ok (json_loads ext (str_strip ext SORRY)) = false ->
  process_message ext cfg user_message s = (Ok r, s') ->
  trace s' = (trace s ++ evs)%list ->
  (existsb is_model_failure evs = true -> r = SORRY)
  /\ calls_after_failure evs = []
  /\ (length (model_calls evs) <= 2)%nat.
Proof.
  intros Hsorry Hrun Htrace.
  assert (Hnot : directive_of ext SORRY = None).
  { unfold directive_of.
    destruct (json_loads ext (str_strip ext SORRY)); [discriminate | reflexivity]. }
  destruct (process_message_shape user_message s)
    as (r1 & s1 & evs1 & _ & Hreach1 & Hevs1 & Hrest).
  destruct Hreach1 as [_ Ht1]. cbn [with_turn trace] in Ht1.
  destruct (directive_of ext r1) as [[api_type params] |] eqn:Hdir.
  - destruct Hrest
      as (api_data & s2 & fetched & r2 & s3 & evs2
          & _ & [_ Ht2] & Hm & Hf & _ & [_ Ht3] & Hevs2 & Hrun').
    rewrite Hrun in Hrun'. injection Hrun' as -> ->.
    cbn [with_turn trace] in Htrace.
    assert (Hquiet1 : evs1 = []).
    { destruct Hevs1 as [-> | (e1 & _ & ->)]; [reflexivity | congruence]. }
    subst evs1.
    rewrite Ht3, Ht2, Ht1, <- !app_assoc in Htrace.
    apply app_inv_head in Htrace. subst evs. cbn [app].
    cbn [existsb calls_after_failure is_model_failure orb].
    rewrite existsb_app, Hf, calls_after_failure_app by exact Hf.
    unfold model_calls. cbn [flat_map app]. rewrite flat_map_app.
    fold (model_calls fetched). rewrite Hm.
    cbn [existsb calls_after_failure is_model_failure orb app flat_map].
    destruct Hevs2 as [-> | (e2 & -> & ->)].
    + cbn. repeat split; auto. discriminate.
    + cbn [existsb calls_after_failure flat_map app length].
      rewrite model_failure_is_model_failure. repeat split; auto.
  - destruct Hrest as (s2 & logs & Hrun' & [_ Ht2] & Hlogs).
    rewrite Hrun in Hrun'. injection Hrun' as -> ->.
    cbn [with_turn trace] in Htrace.
    rewrite Ht2, Ht1, <- !app_assoc in Htrace.
    apply app_inv_head in Htrace. subst evs. cbn [app].
    assert (Hl : existsb is_model_failure logs = false /\ model_calls logs = []).
    { destruct Hlogs as [-> | (e2 & ->)]; [split; reflexivity |].
      destruct (parse_failure_is_log e2) as (_ & _ & _ & Hf & Hm).
      cbn [existsb]. now rewrite Hf. }
    destruct Hl as [Hf Hm].
    destruct Hevs1 as [-> | (e1 & -> & ->)].
    + cbn [app existsb calls_after_failure is_model_failure orb].
      rewrite Hf, (calls_after_failure_quiet _ Hf).
      unfold model_calls in *. cbn [flat_map app]. rewrite Hm.
      repeat split; [discriminate | cbn; auto].
    + cbn [app existsb calls_after_failure is_model_failure].
      rewrite model_failure_is_model_failure.
      unfold model_calls in *. cbn [flat_map app model_failure]. rewrite Hm.
      repeat split; cbn; auto.
Qed.

(** C6, amended. When a model call raises during [process_message], the
    text returned is the fixed apology and the call is not tried again.  If
    the phase-1 call raises, the turn returns the apology after that one
    model call: the apology is stored as the assistant turn and only the
    two handlers' messages are logged.  If the phase-2 call raises, the
    turn returns the apology, and the failed request and its log message
    are the last things in the trace.  In every case the turn returns, no
    model call follows a logged model failure, and at most two model calls
    are made.  (That the apology itself is no JSON text is a fact of
    [json.loads], assumed here.) *)
Theorem model_failure_yields_fixed_error user_message (s : St) :
  is_Ok (json_loads ext (str_strip ext SORRY)) = false ->
  let s0 := with_turn (user_turn user_message) s in
  let intent := request_for ext user_message JNull s0 in
  (forall e w,
      messages_create ext intent (world s0) = (Raise e, w) ->
      exists e',
        json_loads ext (str_strip ext SORRY) = Raise e'
        /\ process_message ext cfg user_message s
           = (Ok SORRY,
              with_turn (assistant_turn SORRY)
                (mkState (chatbot s0) w
                   (trace s ++ [EvModel intent; model_failure e; parse_failure e']))))
  /\ (forall claude_response s1 api_type params api_data s2 e w,
        call_claude_api ext user_message JNull s0 = (Ok claude_response, s1) ->
        directive_of ext claude_response = Some (api_type, params) ->
        fetch_external_data ext cfg api_type params s1 = (Ok api_data, s2) ->
        messages_create ext (request_for ext user_message api_data s2) (world s2)
        = (Raise e, w) ->
        process_message ext cfg user_message s
        = (Ok SORRY,
           with_turn (assistant_turn SORRY)
             (mkState (chatbot s2) w
                (trace s2
                   ++ [EvModel (request_for ext user_message api_data s2);
                       model_failure e]))))
  /\ exists r s' evs,
       process_message ext cfg user_message s = (Ok r, s')
       /\ trace s' = (trace s ++ evs)%list
       /\ (existsb is_model_failure evs = true -> r = SORRY)
       /\ calls_after_failure evs = []
       /\ (length (model_calls evs) <= 2)%nat.
Proof.
  intros Hsorry s0 intent. split; [| split].
  - intros e w Hraise.
    destruct (json_loads ext (str_strip ext SORRY)) as [v | e'] eqn:Hloads;
      [discriminate |].
    exists e'. split; [reflexivity |].
    rewrite process_message_run. fold s0.
    rewrite call_claude_api_run. cbv zeta. fold intent. rewrite Hraise.
    rewrite directive_run, Hloads.
    unfold with_events, with_turn. cbn [chatbot world trace s0 with_turn].
    now rewrite <- app_assoc.
  - intros claude_response s1 api_type params api_data s2 e w Hcall Hdir Hfetch Hraise.
    rewrite process_message_run. fold s0. rewrite Hcall.
    destruct (directive_followed user_message claude_response
                api_type params s1 Hdir)
      as (api_data' & s2' & final_response & s3 & Hfetch' & Hcall2 & Htry).
    rewrite Hfetch in Hfetch'. injection Hfetch' as <- <-.
    rewrite call_claude_api_run in Hcall2. cbv zeta in Hcall2.
    rewrite Hraise in Hcall2. injection Hcall2 as <- <-.
    rewrite Htry. reflexivity.
  - destruct (process_message_extends_the_trace user_message s)
      as (r & s' & evs & Hrun & Ht).
    exists r, s', evs. split; [exact Hrun |]. split; [exact Ht |].
    exact (logged_model_failure_ends_the_calls user_message s r s' evs Hsorry Hrun Ht).
Qed.


(** ** The claims about [chat] *)

Lemma process_message_total user_message (s : St) :
  exists r s', process_message ext cfg user_message s = (Ok r, s').
Proof.
  destruct (process_message_shape user_message s)
    as (r1 & s1 & evs1 & _ & _ & _ & Hrest).
  destruct (directive_of ext r1) as [[api_type params] |].
  - destruct Hrest as (? & ? & ? & r2 & s3 & ? & _ & _ & _ & _ & _ & _ & _ & Hrun).
    eauto.
  - destruct Hrest as (s2 & ? & Hrun & _). eauto.
Qed.

(** C5. A body whose ["message"] (or its default, the empty string) strips
    to the empty string is answered 400 with an ["error"] field, and the
    state is the one before the request: no turn appended, nothing called,
    nothing logged. *)
Theorem blank_message_is_rejected (s : St) d text :
  py_get (JDict d) "message" (JStr "") = Ok (JStr text) ->
  str_strip ext text = "" ->
  chat ext cfg (Ok (JDict d)) s
  = (Ok (mkReply 400 (error_object "Message required")), s).
Proof.
  intros Hget Hstrip. unfold chat.
  cbv beta iota delta [try_except bind lift].
  rewrite Hget. cbn [py_strip]. rewrite Hstrip. reflexivity.
Qed.

(** C10. A body that is no object, or an object whose ["message"] is no
    string, or a body [request.get_json()] raised on, is answered 500 with
    [{"error": "Internal error"}]; the chatbot, hence its conversation
    history, is the one before the request, and only the error is logged. *)
Theorem unreadable_body_is_internal_error get_json (s : St) :
  readable_body get_json = false ->
  exists e s',
    chat ext cfg get_json s
    = (Ok (mkReply 500 (error_object "Internal error")), s')
    /\ s' = with_events [chat_failure e] s
    /\ history s' = history s.
Proof.
  intros Hbody. unfold chat.
  cbv beta iota delta [try_except bind lift].
  destruct get_json as [v | e]; [| exists e; eexists; repeat split].
  destruct v as [| b | z | f | str | l | d];
    try solve [eexists; eexists; repeat split].
  cbn [readable_body] in Hbody. cbn [py_get].
  destruct (dict_lookup "message" d) as [m |]; [| discriminate].
  destruct m as [| b | z | f | str | l | d']; try discriminate;
    solve [eexists; eexists; repeat split].
Qed.

(** X1. A request with a message that is not blank is answered 200, and
    the conversation returned is the whole history, whatever its length:
    the one before the request, the user turn (the message as stripped) and
    the assistant turn, whose text is the response returned. *)
Lemma chat_returns_whole_history (s : St) d text :
  py_get (JDict d) "message" (JStr "") = Ok (JStr text) ->
  str_strip ext text <> "" ->
  exists response s',
    chat ext cfg (Ok (JDict d)) s
    = (Ok (mkReply 200
             (JDict [("response", JStr response);
                     ("conversation", JList (map jsonify_turn (history s')))])),
       s')
    /\ history s'
       = (history s ++ [user_turn (str_strip ext text); assistant_turn response])%list.
Proof.
  intros Hget Hstrip. unfold chat.
  cbv beta iota delta [try_except bind lift].
  rewrite Hget. cbn [py_strip truthy].
  destruct (String.eqb_spec (str_strip ext text) "") as [Heq | _]; [contradiction |].
  cbn [negb].
  destruct (turn_leaves_one_exchange (str_strip ext text) s)
    as (response & s' & Hrun & Hhist).
  rewrite Hrun. exists response, s'. split; [reflexivity | exact Hhist].
Qed.

(** ** The token *)

(** C7, amended. [get_access_token] raises an [HTTPError] when the token
    endpoint answers with a status from 400 to 599, the statuses
    [raise_for_status] raises for.  Every other status, one outside 2xx
    too, raises nothing: the body is read, its ["access_token"] is returned
    when it has one, and when the body is an object without it [None] is
    returned and nothing is raised. *)
Theorem get_access_token_failure_modes (s : St) resp w :
  requests_post ext (password_grant cfg) (world s) = (Ok resp, w) ->
  let s' := mkState (chatbot s) w (trace s ++ [EvPost (password_grant cfg)]) in
  (error_status (status_code resp) = true ->
   exists e, get_access_token ext cfg s = (Raise e, s') /\ exn_type e = HTTPError)
  /\ (forall d,
        error_status (status_code resp) = false ->
        json_body resp = Ok (JDict d) ->
        dict_lookup "access_token" d = None ->
        get_access_token ext cfg s = (Ok JNull, s'))
  /\ (forall d v,
        error_status (status_code resp) = false ->
        json_body resp = Ok (JDict d) ->
        dict_lookup "access_token" d = Some v ->
        get_access_token ext cfg s = (Ok v, s')).
Proof.
  intros Hpost s'. unfold get_access_token. fold (password_grant cfg).
  run_m. rewrite Hpost. unfold error_status, raise_for_status.
  split.
  - intros Hstatus.
    destruct ((400 <=? status_code resp) && (status_code resp <? 500)) eqn:H4.
    + eexists. split; reflexivity.
    + destruct ((500 <=? status_code resp) && (status_code resp <? 600)) eqn:H5.
      * eexists. split; reflexivity.
      * exfalso. lia.
  - split; intros d.
    + intros Hstatus Hbody Hmissing.
      destruct ((400 <=? status_code resp) && (status_code resp <? 500)) eqn:H4;
        [exfalso; lia |].
      destruct ((500 <=? status_code resp) && (status_code resp <? 600)) eqn:H5;
        [exfalso; lia |].
      rewrite Hbody. cbn [py_get]. now rewrite Hmissing.
    + intros v Hstatus Hbody Hpresent.
      destruct ((400 <=? status_code resp) && (status_code resp <? 500)) eqn:H4;
        [exfalso; lia |].
      destruct ((500 <=? status_code resp) && (status_code resp <? 600)) eqn:H5;
        [exfalso; lia |].
      rewrite Hbody. cbn [py_get]. now rewrite Hpresent.
Qed.

(** ** The message list of the intent phase *)

Lemma copied_turns (l : list turn) :
  map (fun msg => mkTurn (role msg) (content msg)) l = l.
Proof.
  induction l as [| [r c] l IH]; cbn [map role content]; [reflexivity |].
  now rewrite IH.
Qed.

(** The intent phase sends the last four stored turns, the current user
    message among them since [process_message] stored it first, and then
    the current user message once more. *)
Lemma intent_request_messages user_message (s : St) :
  messages (request_for ext user_message JNull (with_turn (user_turn user_message) s))
  = (recent_history (history s ++ [user_turn user_message])
       ++ [user_turn user_message])%list.
Proof.
  unfold request_for, build_messages. cbn [messages].
  now rewrite copied_turns, history_with_turn.
Qed.

(** With four prior turns or more, only the last three of them are sent. *)
Lemma intent_window_of_a_long_history (prior : list turn) (current : turn) :
  (4 <= length prior)%nat ->
  recent_history (prior ++ [current]) = (last_n 3 prior ++ [current])%list.
Proof.
  intros Hlen. unfold recent_history, last_n.
  rewrite length_app. cbn [length].
  destruct (Nat.ltb_spec 4 (length prior + 1)) as [_ | Hge]; [| lia].
  rewrite skipn_app.
  replace (length prior + 1 - 4)%nat with (length prior - 3)%nat by lia.
  replace (length prior - 3 - length prior)%nat with 0%nat by lia.
  reflexivity.
Qed.

(** The first thing a turn does is the intent request. *)
Lemma intent_request_is_sent_first user_message (s : St) :
  exists r s' evs,
    process_message ext cfg user_message s = (Ok r, s')
    /\ trace s'
       = (trace s
            ++ EvModel (request_for ext user_message JNull
                          (with_turn (user_turn user_message) s)) :: evs)%list.
Proof.
  destruct (process_message_shape user_message s)
    as (r1 & s1 & evs1 & _ & [_ Ht1] & _ & Hrest).
  cbn [with_turn trace] in Ht1.
  destruct (directive_of ext r1) as [[api_type params] |].
  - destruct Hrest
      as (api_data & s2 & fetched & r2 & s3 & evs2
          & _ & [_ Ht2] & _ & _ & _ & [_ Ht3] & _ & Hrun).
    eexists _, _, _. split; [exact Hrun |].
    cbn [with_turn trace]. rewrite Ht3, Ht2, Ht1, <- !app_assoc. reflexivity.
  - destruct Hrest as (s2 & logs & Hrun & [_ Ht2] & _).
    eexists _, _, _. split; [exact Hrun |].
    cbn [with_turn trace]. rewrite Ht2, Ht1, <- !app_assoc. reflexivity.
Qed.

End AssistantFacts.

(** * Properties of the weather script *)

Section WeatherFacts.
Context {World : Type}.
Variable ext : Weather.Externals World.

(** One turn of the loop, for a city the service answers for. *)
Lemma report_run city lat lon (s : Weather.state World) f w' :
  Weather.served ext (Weather.world s) lat lon f w' ->
  Weather.report ext city lat lon s
  = (Ok tt,
     Weather.mkState w'
       (Weather.trace s
          ++ [Weather.EvGet Weather.url (Weather.query lat lon);
              Weather.EvPrint Weather.separator;
              Weather.EvPrint (Weather.temperature_title city);
              Weather.EvPlot (JList (firstn 24 (Weather.temperatures f)));
              Weather.EvPrint (Weather.temperature_chart f);
              Weather.EvPrint (Weather.humidity_title city);
              Weather.EvPlot (JList (firstn 24 (Weather.humidities f)));
              Weather.EvPrint (Weather.humidity_chart f)])).
Proof.
  intros (r & data & hourly & Hget & Hbody & Hhourly & Htemps & Hhums & _ & _ & Hct & Hch).
  unfold Weather.report.
  cbv beta iota zeta delta
    [bind lift ret Weather.http_get Weather.emit Weather.print Weather.plot].
  cbn [Weather.world Weather.trace].
  rewrite Hget, Hbody, Hhourly, Htemps, Hhums. cbn [py_slice_to].
  rewrite Hct, Hch. cbn [Weather.world Weather.trace].
  rewrite <- !app_assoc. reflexivity.
Qed.

Lemma printed_app t1 t2 :
  Weather.printed (t1 ++ t2) = (Weather.printed t1 ++ Weather.printed t2)%list.
Proof. apply flat_map_app. Qed.

Lemma plotted_app t1 t2 :
  Weather.plotted (t1 ++ t2) = (Weather.plotted t1 ++ Weather.plotted t2)%list.
Proof. apply flat_map_app. Qed.

(** C8. When the forecast service answers the three queries, in the order
    Berlin, Paris, Rome, each with series of at least 24 values, the script
    ends normally; it prints, city by city in that order, a separator, the
    temperature title and chart, the humidity title and chart; it draws
    exactly six charts, each of the first 24 values of its series. *)
Theorem main_prints_six_charts (s : Weather.state World) w1 w2 w3 berlin paris rome :
  Weather.served ext (Weather.world s) 52.52 13.41 berlin w1 ->
  Weather.served ext w1 48.85 2.35 paris w2 ->
  Weather.served ext w2 41.90 12.49 rome w3 ->
  exists s',
    Weather.main ext s = (Ok tt, s')
    /\ Weather.printed (Weather.trace s')
       = (Weather.printed (Weather.trace s)
            ++ Weather.city_block "Berlin" berlin
            ++ Weather.city_block "Paris" paris
            ++ Weather.city_block "Rome" rome)%list
    /\ Weather.plotted (Weather.trace s')
       = (Weather.plotted (Weather.trace s)
            ++ Weather.city_series berlin
            ++ Weather.city_series paris
            ++ Weather.city_series rome)%list
    /\ Forall (fun series => exists l, series = JList l /\ length l = 24%nat)
         (Weather.city_series berlin ++ Weather.city_series paris
            ++ Weather.city_series rome).
Proof.
  intros Hb Hp Hr.
  unfold Weather.main, Weather.cities. cbn [Weather.for_cities].
  cbv beta iota delta [bind].
  rewrite (report_run "Berlin" _ _ s berlin w1 Hb).
  rewrite (report_run "Paris" _ _ (Weather.mkState w1 _) paris w2 Hp).
  rewrite (report_run "Rome" _ _ (Weather.mkState w2 _) rome w3 Hr).
  eexists. split; [reflexivity |]. cbn [Weather.trace].
  split; [| split].
  - rewrite !printed_app, <- !app_assoc. reflexivity.
  - rewrite !plotted_app, <- !app_assoc. reflexivity.
  - destruct Hb as (_ & _ & _ & _ & _ & _ & _ & _ & Hbt & Hbh & _).
    destruct Hp as (_ & _ & _ & _ & _ & _ & _ & _ & Hpt & Hph & _).
    destruct Hr as (_ & _ & _ & _ & _ & _ & _ & _ & Hrt & Hrh & _).
    unfold Weather.city_series. cbn [app].
    repeat constructor; eexists; (split; [reflexivity |]);
      rewrite length_firstn; lia.
Qed.

End WeatherFacts.

(** * The statements on a scripted world *)

(** C1, on a history of four turns.  The claim expects the intent request
    to carry the four prior turns and then the user message; the request
    carries the last three prior turns and the user message twice, since
    [process_message] stores the user turn before [call_claude_api] takes
    its window and appends the message again.  The conversation the chat
    reply returns is the whole history. *)
Theorem intent_request_repeats_the_user_message :
  let prior := [user_turn "q1"; assistant_turn "a1";
                user_turn "q2"; assistant_turn "a2"] in
  let s := Mock.start prior (Mock.replies [Ok "a3"]) in
  let claimed := (last_n 4 prior ++ [user_turn "q3"])%list in
  let outcome := chat Mock.ext Mock.cfg (Ok (JDict [("message", JStr "q3")])) s in
  map messages (model_calls (trace (snd outcome)))
  = [[assistant_turn "a1"; user_turn "q2"; assistant_turn "a2";
      user_turn "q3"; user_turn "q3"]]
  /\ map messages (model_calls (trace (snd outcome))) <> [claimed]
  /\ fst outcome
     = Ok (mkReply 200
             (JDict [("response", JStr "a3");
                     ("conversation",
                      JList (map jsonify_turn
                               (prior ++ [user_turn "q3"; assistant_turn "a3"])))])).
Proof.
  cbv zeta. split; [vm_compute; reflexivity |].
  split; [vm_compute; discriminate | vm_compute; reflexivity].
Qed.

(** C3 on a reply that is the rooms directive with empty params. *)
Lemma rooms_without_school_uuid_example :
  let user_message := "Which rooms are there?" in
  let s := Mock.start []
             (Mock.replies [Ok Mock.rooms_directive; Ok "Which school do you mean?"]) in
  let api_data := error_object "School UUID required for fetching rooms" in
  exists s1 final_response s2 evs,
    call_claude_api Mock.ext user_message JNull (with_turn (user_turn user_message) s)
    = (Ok Mock.rooms_directive, s1)
    /\ process_message Mock.ext Mock.cfg user_message s
       = (Ok final_response, with_turn (assistant_turn final_response) s2)
    /\ trace s2 = (trace s ++ evs)%list
    /\ resource_calls evs = []
    /\ map system (model_calls evs)
       = [INTENT_PROMPT; FORMAT_PROMPT user_message (Mock.dumps api_data)].
Proof.
  intros user_message s api_data.
  pose (s1 := snd (call_claude_api Mock.ext user_message JNull
                     (with_turn (user_turn user_message) s))).
  assert (Hcall : call_claude_api Mock.ext user_message JNull
                    (with_turn (user_turn user_message) s)
                  = (Ok Mock.rooms_directive, s1)) by (vm_compute; reflexivity).
  destruct (rooms_without_school_uuid_is_not_fetched Mock.ext Mock.cfg
              user_message s Mock.rooms_directive s1
              [("needsAPI", JBool true); ("apiType", JStr "rooms"); ("params", JDict [])]
              Hcall eq_refl eq_refl eq_refl eq_refl)
    as (final_response & s2 & evs & _ & _ & Hrun & Htrace & Hres & Hcalls & Hsys).
  exists s1, final_response, s2, evs.
  repeat (split; [assumption |]).
  rewrite Hcalls. reflexivity.
Defined.

(** C4 as stated fails on a directive without ["params"]: the reply lacks
    one of the three keys of a directive, and yet the schools are fetched
    and the model is asked a second time. *)
Lemma directive_without_params_is_followed :
  let user_message := "List the schools" in
  let s := Mock.start []
             (Mock.mkWorld [Ok Mock.schools_directive; Ok "Schools: North, South"] []
                [Mock.http_ok (JList [JStr "North"; JStr "South"])]) in
  let outcome := process_message Mock.ext Mock.cfg user_message s in
  fst (call_claude_api Mock.ext user_message JNull (with_turn (user_turn user_message) s))
  = Ok Mock.schools_directive
  /\ lacks_a_key Mock.ext ["needsAPI"; "apiType"; "params"] Mock.schools_directive = true
  /\ ~ direct_answer user_message s Mock.schools_directive outcome
  /\ fst outcome = Ok "Schools: North, South"
  /\ resource_calls (trace (snd outcome))
     = [EvGet "https://iot.example/api/group/main" "Bearer t0"]
  /\ length (model_calls (trace (snd outcome))) = 2%nat.
Proof.
  cbv zeta. split; [vm_compute; reflexivity |].
  split; [vm_compute; reflexivity |].
  split; [| repeat split; vm_compute; reflexivity].
  intros [Hfst _]. vm_compute in Hfst. discriminate.
Qed.

(** C4, amended, on a reply in plain text. *)
Lemma plain_text_reply_example :
  let user_message := "Hello" in
  let s := Mock.start [] (Mock.replies [Ok "Hello! How can I help?"]) in
  lacks_a_key Mock.ext ["needsAPI"; "apiType"] "Hello! How can I help?" = true
  /\ direct_answer user_message s "Hello! How can I help?"
       (process_message Mock.ext Mock.cfg user_message s).
Proof.
  intros user_message s. split; [vm_compute; reflexivity |].
  apply (reply_without_directive_is_direct_answer Mock.ext Mock.cfg user_message s
           "Hello! How can I help?"
           (snd (call_claude_api Mock.ext user_message JNull
                   (with_turn (user_turn user_message) s)))).
  - vm_compute; reflexivity.
  - vm_compute; reflexivity.
Defined.

(** C5 on a message of blanks. *)
Lemma blank_message_example :
  let s := Mock.start [user_turn "q1"; assistant_turn "a1"] (Mock.replies [Ok "a2"]) in
  chat Mock.ext Mock.cfg (Ok (JDict [("message", JStr "   ")])) s
  = (Ok (mkReply 400 (error_object "Message required")), s).
Proof.
  intros s.
  apply (blank_message_is_rejected Mock.ext Mock.cfg s [("message", JStr "   ")] "   ").
  - reflexivity.
  - vm_compute; reflexivity.
Defined.

(** C6 as stated fails on a reply in plain text: [json.loads] raises, the
    exception is caught and logged, and what is returned is the reply, not
    the fixed apology. *)
Lemma decoding_failure_returns_the_reply :
  let s := Mock.start [] (Mock.replies [Ok "Hello! How can I help?"]) in
  let outcome := process_message Mock.ext Mock.cfg "Hello" s in
  is_Ok (json_loads Mock.ext (str_strip Mock.ext "Hello! How can I help?")) = false
  /\ logged (trace (snd outcome))
     = [EvLog "JSON parsing error: Expecting value: line 1 column 1 (char 0)"]
  /\ fst outcome = Ok "Hello! How can I help?"
  /\ fst outcome <> Ok SORRY.
Proof.
  cbv zeta. repeat split; try (vm_compute; reflexivity).
  vm_compute. discriminate.
Qed.

(** C6, amended, on a phase-1 call that raises and on a phase-2 call that
    raises. *)
Lemma model_failure_example :
  let overloaded := mkExn OtherException "overloaded" in
  let first := Mock.start [] (Mock.replies [Raise overloaded]) in
  let second := Mock.start []
                  (Mock.mkWorld [Ok Mock.schools_directive; Raise overloaded] []
                     [Mock.http_ok (JList [JStr "North"])]) in
  is_Ok (json_loads Mock.ext (str_strip Mock.ext SORRY)) = false
  /\ (exists s',
        process_message Mock.ext Mock.cfg "Hello" first = (Ok SORRY, s')
        /\ history s' = [user_turn "Hello"; assistant_turn SORRY]
        /\ length (model_calls (trace s')) = 1%nat)
  /\ (exists s',
        process_message Mock.ext Mock.cfg "List the schools" second = (Ok SORRY, s')
        /\ history s' = [user_turn "List the schools"; assistant_turn SORRY]
        /\ length (model_calls (trace s')) = 2%nat).
Proof.
  intros overloaded first second.
  assert (Hsorry : is_Ok (json_loads Mock.ext (str_strip Mock.ext SORRY)) = false)
    by (vm_compute; reflexivity).
  split; [exact Hsorry |]. split.
  - destruct (proj1 (model_failure_yields_fixed_error Mock.ext Mock.cfg
                       "Hello" first Hsorry)
                overloaded (Mock.replies []) eq_refl)
      as (e' & Hloads & Hrun).
    eexists. split; [exact Hrun |].
    assert (He : e' = mkExn JSONDecodeError "Expecting value: line 1 column 1 (char 0)").
    { vm_compute in Hloads. now injection Hloads as <-. }
    subst e'. split; reflexivity.
  - pose (s0 := with_turn (user_turn "List the schools") second).
    pose (s1 := snd (call_claude_api Mock.ext "List the schools" JNull s0)).
    pose (s2 := snd (fetch_external_data Mock.ext Mock.cfg (JStr "schools") (JDict []) s1)).
    pose proof (proj1 (proj2 (model_failure_yields_fixed_error Mock.ext Mock.cfg
                                "List the schools" second Hsorry))
                  Mock.schools_directive s1 (JStr "schools") (JDict [])
                  (JList [JStr "North"]) s2 overloaded (Mock.mkWorld [] [] [])) as Hrun.
    eexists. split; [apply Hrun; vm_compute; reflexivity |].
    split; vm_compute; reflexivity.
Defined.

(** C7 as stated fails on a status that is no success and no error for
    [raise_for_status]: a 300 with a token in its body is returned from
    as a 200 would be. *)
Lemma status_outside_2xx_is_not_raised :
  let choices :=
    mkResponse 300 "Multiple Choices" "https://iot.example/token"
      (Ok (JDict [("access_token", JStr "t1")])) in
  let s := Mock.start [] (Mock.mkWorld [] [Ok choices] []) in
  success_status (status_code choices) = false
  /\ fst (get_access_token Mock.ext Mock.cfg s) = Ok (JStr "t1").
Proof. cbv zeta. split; vm_compute; reflexivity. Qed.

(** C7, amended, on a token endpoint that answers 401, on one that answers
    200 with a body without the token, and on one that answers 300 with a
    token. *)
Lemma get_access_token_example :
  let unauthorized :=
    mkResponse 401 "Unauthorized" "https://iot.example/token" (Ok (JDict [])) in
  let tokenless :=
    mkResponse 200 "OK" "https://iot.example/token"
      (Ok (JDict [("token_type", JStr "bearer")])) in
  let choices :=
    mkResponse 300 "Multiple Choices" "https://iot.example/token"
      (Ok (JDict [("access_token", JStr "t1")])) in
  let s1 := Mock.start [] (Mock.mkWorld [] [Ok unauthorized] []) in
  let s2 := Mock.start [] (Mock.mkWorld [] [Ok tokenless] []) in
  let s3 := Mock.start [] (Mock.mkWorld [] [Ok choices] []) in
  (exists e s', get_access_token Mock.ext Mock.cfg s1 = (Raise e, s')
                /\ exn_type e = HTTPError)
  /\ (exists s', get_access_token Mock.ext Mock.cfg s2 = (Ok JNull, s'))
  /\ (exists s', get_access_token Mock.ext Mock.cfg s3 = (Ok (JStr "t1"), s')).
Proof.
  intros unauthorized tokenless choices s1 s2 s3. split; [| split].
  - destruct (proj1 (get_access_token_failure_modes Mock.ext Mock.cfg s1 unauthorized
                       (Mock.mkWorld [] [] []) eq_refl) eq_refl)
      as (e & Hrun & Hkind).
    eauto.
  - eexists.
    apply (proj1 (proj2 (get_access_token_failure_modes Mock.ext Mock.cfg s2 tokenless
                           (Mock.mkWorld [] [] []) eq_refl))
             [("token_type", JStr "bearer")]); reflexivity.
  - eexists.
    apply (proj2 (proj2 (get_access_token_failure_modes Mock.ext Mock.cfg s3 choices
                           (Mock.mkWorld [] [] []) eq_refl))
             [("access_token", JStr "t1")]); reflexivity.
Defined.



(** C10 on a message that is a number. *)
Lemma numeric_message_example :
  let s := Mock.start [user_turn "q1"; assistant_turn "a1"] (Mock.replies [Ok "a2"]) in
  exists e s',
    chat Mock.ext Mock.cfg (Ok (JDict [("message", JInt 42)])) s
    = (Ok (mkReply 500 (error_object "Internal error")), s')
    /\ s' = with_events [chat_failure e] s
    /\ history s' = history s.
Proof.
  intros s.
  apply (unreadable_body_is_internal_error Mock.ext Mock.cfg
           (Ok (JDict [("message", JInt 42)])) s).
  reflexivity.
Defined.

(** C8 on a forecast service that answers with thirty values a series. *)
Lemma three_cities_example :
  let s := Weather.mkState
             [Weather.forecast_response 10 60;
              Weather.forecast_response 12 55;
              Weather.forecast_response 18 40] [] in
  exists s',
    Weather.main Weather.scripted s = (Ok tt, s')
    /\ Weather.printed (Weather.trace s')
       = (Weather.city_block "Berlin" (Weather.sample_of 10 60)
            ++ Weather.city_block "Paris" (Weather.sample_of 12 55)
            ++ Weather.city_block "Rome" (Weather.sample_of 18 40))%list
    /\ length (Weather.plotted (Weather.trace s')) = 6%nat.
Proof.
  intros s.
  assert (Hserved : forall t0 h0 lat lon rest,
             Weather.served Weather.scripted
               (Weather.forecast_response t0 h0 :: rest) lat lon
               (Weather.sample_of t0 h0) rest).
  { intros t0 h0 lat lon rest.
    exists (mkResponse 200 "OK" Weather.url (Ok (Weather.forecast_body t0 h0))),
      (Weather.forecast_body t0 h0),
      (JDict [("time", JList []);
              ("temperature_2m", JList (Weather.thirty t0));
              ("relative_humidity_2m", JList (Weather.thirty h0))]).
    repeat split; try reflexivity; cbn; lia. }
  destruct (main_prints_six_charts Weather.scripted s _ _ _ _ _ _
              (Hserved 10 60 _ _ _) (Hserved 12 55 _ _ _) (Hserved 18 40 _ _ _))
    as (s' & Hrun & Hprinted & Hplotted & _).
  exists s'. split; [exact Hrun |]. split; [exact Hprinted |].
  rewrite Hplotted. reflexivity.
Defined.

(** * More properties of the chatbot *)

Section AssistantMore.
Context {World : Type}.
Variable ext : Externals World.
Variable cfg : config.

Local Abbreviation St := (state World).

(** ** The Resource Client, request by request *)

(** The client functions make one GET with the bearer header and return
    what [response_value] makes of its outcome. *)
Lemma authorized_get_exact access_token target (s : St) :
  authorized_get ext access_token target s
  = (response_value
       (fst (requests_get ext target ("Bearer " ++ py_str ext access_token) (world s))),
     mkState (chatbot s)
       (snd (requests_get ext target ("Bearer " ++ py_str ext access_token) (world s)))
       (trace s ++ [EvGet target ("Bearer " ++ py_str ext access_token)])).
Proof.
  unfold authorized_get. run_m.
  destruct (requests_get ext _ _ (world s)) as [[resp | e] w]; run_m;
    [| reflexivity].
  cbn [response_value]. destruct (raise_for_status resp); run_m; [| reflexivity].
  destruct (json_body resp); reflexivity.
Qed.

Lemma fetch_block_schools params (s : St) :
  fetch_block ext cfg (JStr "schools") params s
  = authorized_get ext (token (api_client (chatbot s))) (schools_url cfg) s.
Proof. reflexivity. Qed.

(** What the [try] block does for a kind that needs a parameter. *)
Lemma fetch_block_requirement r params (s : St) :
  In r requirements ->
  fetch_block ext cfg (JStr (req_kind r)) params s
  = match py_get params (req_key r) JNull with
    | Raise e => (Raise e, s)
    | Ok uuid =>
        if truthy uuid then
          authorized_get ext (token (api_client (chatbot s)))
            (resource_url ext cfg r uuid) s
        else (Ok (error_object (req_message r)), s)
    end.
Proof.
  intros Hin. cbn [requirements In] in Hin.
  destruct Hin as [<- | [<- | [<- | []]]];
    unfold fetch_block, resource_url;
    cbn [req_kind req_key req_message req_prefix req_suffix eq_str
           String.eqb Ascii.eqb Bool.eqb];
    cbv beta iota delta [bind lift ret];
    (destruct (py_get params _ JNull) as [uuid | e]; [| reflexivity]);
    destruct (truthy uuid); reflexivity.
Qed.

Lemma py_str_of_string (text : string) : py_str ext (JStr text) = text.
Proof. reflexivity. Qed.

(** X3. For a kind that needs a parameter ([rooms], [sensors], [values]),
    a parameter that is absent or false in Python's sense ([None], the empty
    string, [0], an empty list) gives the kind's
    [{"error": "... required ..."}] object; the state is untouched: nothing
    is requested and nothing is logged. *)
Theorem missing_parameter_is_not_fetched r params uuid (s : St) :
  In r requirements ->
  py_get params (req_key r) JNull = Ok uuid ->
  truthy uuid = false ->
  fetch_external_data ext cfg (JStr (req_kind r)) params s
  = (Ok (error_object (req_message r)), s).
Proof.
  intros Hin Hget Hfalse.
  rewrite fetch_external_data_run, (fetch_block_requirement r params s Hin).
  now rewrite Hget, Hfalse.
Qed.

(** X4. For a kind that needs a parameter, [params] that is no [dict] (a
    list, a string, [None]) makes [params.get] raise; the failure is caught:
    the result is [{"error": "Failed to fetch <kind>: '<type>' object has no
    attribute 'get'"}], the failure is logged and nothing is requested. *)
Theorem params_of_another_type_are_reported r params (s : St) :
  In r requirements ->
  is_dict params = false ->
  fetch_external_data ext cfg (JStr (req_kind r)) params s
  = fetch_failed (req_kind r) (attribute_error params "get") s.
Proof.
  intros Hin Hdict.
  rewrite fetch_external_data_run, (fetch_block_requirement r params s Hin).
  destruct params; try discriminate; reflexivity.
Qed.

(** X5. For a kind that needs a parameter and has it, [fetch_external_data]
    makes exactly one GET, to the kind's URL around the parameter and with
    the chatbot's bearer header, and the outcome of that request decides:
    the decoded body is returned as it is; a failed request, an error
    status (whatever the body) or an undecodable body becomes
    [{"error": "Failed to fetch <kind>: <message>"}] and is logged. *)
Theorem resource_request_decides r params uuid (s : St) outcome w :
  In r requirements ->
  py_get params (req_key r) JNull = Ok uuid ->
  truthy uuid = true ->
  requests_get ext (resource_url ext cfg r uuid) (bearer ext s) (world s)
  = (outcome, w) ->
  let s1 := mkState (chatbot s) w
              (trace s ++ [EvGet (resource_url ext cfg r uuid) (bearer ext s)]) in
  fetch_external_data ext cfg (JStr (req_kind r)) params s
  = match response_value outcome with
    | Ok v => (Ok v, s1)
    | Raise e => fetch_failed (req_kind r) e s1
    end.
Proof.
  intros Hin Hget Htrue Hreq s1.
  rewrite fetch_external_data_run, (fetch_block_requirement r params s Hin).
  rewrite Hget, Htrue, authorized_get_exact.
  fold (bearer ext s). rewrite Hreq. cbn [fst snd]. fold s1.
  destruct (response_value outcome); reflexivity.
Qed.

(** X6. For the kind [schools], [params] is never read, whatever it is:
    one GET goes to [<api_url>/group/main] with the chatbot's bearer header
    and its outcome decides as for the other kinds. *)
Theorem schools_request_ignores_params params (s : St) outcome w :
  requests_get ext (schools_url cfg) (bearer ext s) (world s) = (outcome, w) ->
  let s1 := mkState (chatbot s) w
              (trace s ++ [EvGet (schools_url cfg) (bearer ext s)]) in
  fetch_external_data ext cfg (JStr "schools") params s
  = match response_value outcome with
    | Ok v => (Ok v, s1)
    | Raise e => fetch_failed "schools" e s1
    end.
Proof.
  intros Hreq s1.
  rewrite fetch_external_data_run, fetch_block_schools, authorized_get_exact.
  fold (bearer ext s). rewrite Hreq. cbn [fst snd]. fold s1.
  destruct (response_value outcome); reflexivity.
Qed.

(** ** What a turn requests *)

Lemma get_access_token_reaches (s : St) :
  exists r s1,
    get_access_token ext cfg s = (r, s1)
    /\ reaches [EvPost (password_grant cfg)] s s1.
Proof.
  unfold get_access_token. fold (password_grant cfg). run_m.
  destruct (requests_post ext _ (world s)) as [[resp | e] w]; run_m.
  - destruct (raise_for_status resp); run_m.
    + destruct (json_body resp) as [body | e]; run_m.
      * destruct (py_get body "access_token" JNull);
          eexists _, _; split; try reflexivity; split; reflexivity.
      * eexists _, _; split; try reflexivity; split; reflexivity.
    + eexists _, _; split; try reflexivity; split; reflexivity.
  - eexists _, _; split; try reflexivity; split; reflexivity.
Qed.

(** The [try] block of [fetch_external_data] requests with the bearer
    header of the chatbot. *)
Lemma fetch_block_header api_type params (s : St) :
  exists r s' evs,
    fetch_block ext cfg api_type params s = (r, s')
    /\ reaches evs s s'
    /\ (evs = [] \/ exists target, evs = [EvGet target (bearer ext s)]).
Proof.
  assert (Hget : forall target,
             exists r s' evs,
               authorized_get ext (token (api_client (chatbot s))) target s = (r, s')
               /\ reaches evs s s'
               /\ (evs = [] \/ exists t, evs = [EvGet t (bearer ext s)])).
  { intros target. rewrite authorized_get_exact.
    eexists _, _, [EvGet target (bearer ext s)].
    split; [reflexivity |]. split; [split; reflexivity | eauto]. }
  assert (Hstay : forall r : result json,
             exists r' s' evs,
               (r, s) = (r', s') /\ reaches evs s s'
               /\ (evs = [] \/ exists t, evs = [EvGet t (bearer ext s)])).
  { intros r. exists r, s, [].
    split; [reflexivity | split; [apply reaches_refl | now left]]. }
  unfold fetch_block.
  destruct (eq_str api_type "schools").
  { unfold fetch_schools, get_schools. run_m. apply Hget. }
  destruct (eq_str api_type "rooms").
  { unfold fetch_rooms, get_school_rooms. run_m.
    destruct (py_get params "school_uuid" JNull) as [v | e]; [| apply Hstay].
    destruct (negb (truthy v)); run_m; [apply Hstay | apply Hget]. }
  destruct (eq_str api_type "sensors").
  { unfold fetch_sensors, get_room_sensors. run_m.
    destruct (py_get params "room_uuid" JNull) as [v | e]; [| apply Hstay].
    destruct (negb (truthy v)); run_m; [apply Hstay | apply Hget]. }
  destruct (eq_str api_type "values").
  { unfold fetch_sensor_value, get_sensor_latest_value. run_m.
    destruct (py_get params "sensor_uuid" JNull) as [v | e]; [| apply Hstay].
    destruct (negb (truthy v)); run_m; [apply Hstay | apply Hget]. }
  run_m. apply Hstay.
Qed.

Lemma fetch_external_data_header api_type params (s : St) :
  exists v s' evs,
    fetch_external_data ext cfg api_type params s = (Ok v, s')
    /\ reaches evs s s'
    /\ (resource_calls evs = []
        \/ exists target, resource_calls evs = [EvGet target (bearer ext s)]).
Proof.
  rewrite fetch_external_data_run.
  destruct (fetch_block_header api_type params s)
    as (r & s' & evs & Hrun & Hreach & Hevs).
  rewrite Hrun. destruct r as [v | e].
  - exists v, s', evs. split; [reflexivity |]. split; [exact Hreach |].
    destruct Hevs as [-> | (target & ->)]; [now left | right; now exists target].
  - eexists _, _, (evs ++ [fetch_failure e])%list.
    split; [reflexivity |]. split.
    + destruct Hreach as [Hc Ht]. split; [exact Hc |].
      cbn [with_events trace]. now rewrite Ht, app_assoc.
    + rewrite resource_calls_app. cbn [resource_calls filter fetch_failure is_resource_call].
      rewrite app_nil_r.
      destruct Hevs as [-> | (target & ->)]; [now left | right; now exists target].
Qed.

(** X7. Within a turn the client of the chatbot is never replaced (the
    token is never refreshed), at most one request goes to the Resource
    Client, and that request carries the bearer header of the token the
    chatbot held when the turn began. *)
Theorem turn_uses_the_stored_token user_message (s : St) :
  exists r s' evs,
    process_message ext cfg user_message s = (Ok r, s')
    /\ trace s' = (trace s ++ evs)%list
    /\ api_client (chatbot s') = api_client (chatbot s)
    /\ (resource_calls evs = []
        \/ exists target, resource_calls evs = [EvGet target (bearer ext s)]).
Proof.
  destruct (process_message_shape ext cfg user_message s)
    as (r1 & s1 & evs1 & _ & [Hc1 Ht1] & Hevs1 & Hrest).
  cbn [with_turn trace chatbot] in Hc1, Ht1.
  assert (Hr1 : resource_calls
                  (EvModel (request_for ext user_message JNull
                              (with_turn (user_turn user_message) s)) :: evs1) = []).
  { destruct Hevs1 as [-> | (e & -> & _)]; reflexivity. }
  destruct (directive_of ext r1) as [[api_type params] |].
  - destruct Hrest
      as (api_data & s2 & fetched & r2 & s3 & evs2
          & Hfetch & [Hc2 Ht2] & _ & _ & _ & [Hc3 Ht3] & Hevs2 & Hrun).
    destruct (fetch_external_data_header api_type params s1)
      as (v & s2' & fetched' & Hfetch' & [_ Ht2'] & Hres).
    rewrite Hfetch in Hfetch'. injection Hfetch' as <- <-.
    rewrite Ht2 in Ht2'. apply app_inv_head in Ht2'. subst fetched'.
    assert (Hb : bearer ext s1 = bearer ext s).
    { unfold bearer. now rewrite Hc1. }
    rewrite Hb in Hres.
    eexists _, _, _. split; [exact Hrun |]. cbn [with_turn trace chatbot api_client].
    split; [rewrite Ht3, Ht2, Ht1, <- !app_assoc; reflexivity |].
    split; [now rewrite Hc3, Hc2, Hc1 |].
    rewrite !resource_calls_app, Hr1. cbn [app].
    assert (Hr2 : resource_calls
                    (EvModel (request_for ext user_message api_data s2) :: evs2) = []).
    { destruct Hevs2 as [-> | (e & -> & _)]; reflexivity. }
    rewrite Hr2, app_nil_r. exact Hres.
  - destruct Hrest as (s2 & logs & Hrun & [Hc2 Ht2] & Hlogs).
    eexists _, _, _. split; [exact Hrun |]. cbn [with_turn trace chatbot api_client].
    split; [rewrite Ht2, Ht1, <- !app_assoc; reflexivity |].
    split; [now rewrite Hc2, Hc1 |].
    left. rewrite resource_calls_app, Hr1. cbn [app].
    destruct Hlogs as [-> | (e & ->)]; [reflexivity |].
    destruct (parse_failure_is_log e) as (_ & _ & Hr & _).
    unfold resource_calls. cbn [filter]. now rewrite Hr.
Qed.

(** ** Replies that decline, and data that is [None] *)

(** X8. A reply that decodes to an object whose ["needsAPI"] is absent or
    false in Python's sense ([false], [0], the empty string, [null]) is a
    direct answer even when it names an ["apiType"]: the reply is returned
    and stored verbatim, and after the phase-1 call nothing more is called
    and nothing is logged. *)
Theorem declined_directive_is_direct_answer
    user_message (s : St) claude_response s1 d :
  call_claude_api ext user_message JNull (with_turn (user_turn user_message) s)
  = (Ok claude_response, s1) ->
  json_loads ext (str_strip ext claude_response) = Ok (JDict d) ->
  truthy (or_default JNull (dict_lookup "needsAPI" d)) = false ->
  process_message ext cfg user_message s
  = (Ok claude_response, with_turn (assistant_turn claude_response) s1)
  /\ history (with_turn (assistant_turn claude_response) s1)
     = (history s ++ [user_turn user_message; assistant_turn claude_response])%list.
Proof.
  intros Hcall Hloads Hfalse.
  rewrite process_message_run, Hcall, directive_run, Hloads.
  cbn [py_get]. unfold or_default in Hfalse. rewrite Hfalse.
  split; [reflexivity |].
  destruct (call_claude_api_total ext user_message JNull
              (with_turn (user_turn user_message) s))
    as (text & s1' & evs & Hcall' & Hreach & _).
  rewrite Hcall in Hcall'. injection Hcall' as <- <-.
  rewrite history_with_turn, (reaches_history _ _ _ Hreach), history_with_turn.
  now rewrite <- app_assoc.
Qed.

(** X9. When the data fetched for a directive is [None] (the Resource
    Client answered with the JSON value [null]), the second model call is
    the first one over again: the same request, with the intent prompt and
    without the data. *)
Theorem null_data_repeats_the_intent_request
    user_message (s : St) claude_response s1 api_type params s2 :
  call_claude_api ext user_message JNull (with_turn (user_turn user_message) s)
  = (Ok claude_response, s1) ->
  directive_of ext claude_response = Some (api_type, params) ->
  fetch_external_data ext cfg api_type params s1 = (Ok JNull, s2) ->
  let intent := request_for ext user_message JNull
                  (with_turn (user_turn user_message) s) in
  exists final_response s3 evs,
    process_message ext cfg user_message s
    = (Ok final_response, with_turn (assistant_turn final_response) s3)
    /\ trace s3 = (trace s ++ evs)%list
    /\ model_calls evs = [intent; intent]
    /\ system intent = INTENT_PROMPT.
Proof.
  intros Hcall Hdir Hfetch intent.
  destruct (process_message_shape ext cfg user_message s)
    as (r1 & s1' & evs1 & Hcall' & [Hc1 Ht1] & Hevs1 & Hrest).
  cbv zeta in Hcall'. rewrite Hcall in Hcall'. injection Hcall' as <- <-.
  rewrite Hdir in Hrest.
  destruct Hrest
    as (api_data & s2' & fetched & r2 & s3 & evs2
        & Hfetch' & [Hc2 Ht2] & Hm & _ & _ & [_ Ht3] & Hevs2 & Hrun).
  rewrite Hfetch in Hfetch'. injection Hfetch' as <- <-.
  assert (Hsame : request_for ext user_message JNull s2 = intent).
  { unfold intent, request_for, history. now rewrite Hc2, Hc1. }
  rewrite Hsame in Ht3.
  cbn [with_turn trace] in Ht1.
  exists r2, s3, ((EvModel intent :: evs1) ++ fetched ++ EvModel intent :: evs2)%list.
  split; [exact Hrun |].
  split; [rewrite Ht3, Ht2, Ht1, <- !app_assoc; reflexivity |].
  split; [| reflexivity].
  rewrite !model_calls_app, Hm.
  destruct Hevs1 as [-> | (e1 & -> & _)], Hevs2 as [-> | (e2 & -> & _)]; reflexivity.
Qed.

(** ** The window of a model request *)

Lemma recent_history_is_a_suffix (h : list turn) :
  exists dropped,
    h = (dropped ++ recent_history h)%list
    /\ length (recent_history h) = Nat.min (length h) 4.
Proof.
  unfold recent_history, last_n.
  destruct (Nat.ltb_spec 4 (length h)) as [Hlong | Hshort].
  - exists (firstn (length h - 4) h). split.
    + now rewrite firstn_skipn.
    + rewrite length_skipn. lia.
  - exists []. split; [reflexivity | lia].
Qed.

(** X10. Whatever the length of the history, a model request carries at
    most five messages: the last four stored turns (all of them when there
    are fewer), in order and unchanged, and then the user message; the
    model and the token limit are fixed. *)
Theorem model_request_window user_message api_data (s : St) :
  exists text s' evs req dropped kept,
    call_claude_api ext user_message api_data s = (Ok text, s')
    /\ trace s' = (trace s ++ evs)%list
    /\ model_calls evs = [req]
    /\ history s = (dropped ++ kept)%list
    /\ length kept = Nat.min (length (history s)) 4
    /\ messages req = (kept ++ [user_turn user_message])%list
    /\ model req = "claude-sonnet-4-20250514"
    /\ max_tokens req = 1500.
Proof.
  destruct (call_claude_api_total ext user_message api_data s)
    as (text & s' & evs & Hcall & [_ Ht] & Hevs).
  destruct (recent_history_is_a_suffix (history s)) as (dropped & Hsplit & Hlen).
  exists text, s', (EvModel (request_for ext user_message api_data s) :: evs),
    (request_for ext user_message api_data s), dropped, (recent_history (history s)).
  split; [exact Hcall |]. split; [exact Ht |].
  split; [destruct Hevs as [-> | (e & -> & _)]; reflexivity |].
  split; [exact Hsplit |]. split; [exact Hlen |].
  split; [| split; reflexivity].
  unfold request_for, build_messages. cbn [messages].
  now rewrite copied_turns.
Qed.

(** ** Clearing, and what the history looks like *)

Lemma get_access_token_of_body (s : St) resp w body :
  requests_post ext (password_grant cfg) (world s) = (Ok resp, w) ->
  error_status (status_code resp) = false ->
  json_body resp = Ok body ->
  get_access_token ext cfg s
  = (py_get body "access_token" JNull,
     mkState (chatbot s) w (trace s ++ [EvPost (password_grant cfg)])).
Proof.
  intros Hpost Hstatus Hbody. unfold get_access_token. fold (password_grant cfg).
  run_m. rewrite Hpost. unfold error_status in Hstatus. unfold raise_for_status.
  destruct ((400 <=? status_code resp) && (status_code resp <? 500)) eqn:H4;
    [exfalso; lia |].
  destruct ((500 <=? status_code resp) && (status_code resp <? 600)) eqn:H5;
    [exfalso; lia |].
  rewrite Hbody. destruct (py_get body "access_token" JNull); reflexivity.
Qed.

Lemma clear_conversation_run (s : St) :
  clear_conversation ext cfg s
  = match get_access_token ext cfg s with
    | (Ok t, s1) =>
        (Ok (mkReply 200 (JDict [("status", JStr "cleared")])),
         mkState (mkClaudeChatbot (mkExternalAPIClient t) []) (world s1) (trace s1))
    | (Raise e, s1) => (Raise e, s1)
    end.
Proof.
  unfold clear_conversation, ClaudeChatbot_init, ExternalAPIClient_init.
  cbv beta iota delta [bind ret set_self].
  destruct (get_access_token ext cfg s) as [[t | e] s1]; reflexivity.
Qed.

(** X2. Clearing posts one token request.  When the token is obtained the
    chatbot is replaced by one that holds the new token and an empty
    history; when it is not, the failure propagates and the old chatbot,
    its history included, stays in place. *)
Theorem clear_conversation_outcomes (s : St) :
  exists r s1,
    get_access_token ext cfg s = (r, s1)
    /\ trace s1 = (trace s ++ [EvPost (password_grant cfg)])%list
    /\ match r with
       | Ok t =>
           clear_conversation ext cfg s
           = (Ok (mkReply 200 (JDict [("status", JStr "cleared")])),
              mkState (mkClaudeChatbot (mkExternalAPIClient t) []) (world s1) (trace s1))
       | Raise e =>
           clear_conversation ext cfg s = (Raise e, s1)
           /\ chatbot s1 = chatbot s
       end.
Proof.
  destruct (get_access_token_reaches s) as (r & s1 & Hrun & Hc & Ht).
  exists r, s1. split; [exact Hrun |]. split; [exact Ht |].
  rewrite clear_conversation_run, Hrun. destruct r; auto.
Qed.

Lemma exchanges_grow (h : list turn) user_message response :
  exchanges h = true ->
  exchanges (h ++ [user_turn user_message; assistant_turn response]) = true.
Proof.
  assert (H : forall n (l : list turn),
             (length l <= n)%nat -> exchanges l = true ->
             exchanges (l ++ [user_turn user_message; assistant_turn response]) = true).
  { induction n as [| n IH]; intros l Hlen Hl.
    - destruct l; [reflexivity | cbn in Hlen; lia].
    - destruct l as [| u [| a rest]]; [reflexivity | discriminate |].
      cbn [exchanges app] in *.
      apply andb_true_iff in Hl as [Hroles Hrest]. rewrite Hroles. cbn [andb].
      apply IH; [cbn in Hlen; lia | exact Hrest]. }
  now apply (H (length h)).
Qed.

(** [chat] leaves the history as it was or appends one exchange to it. *)
Lemma chat_history_step get_json (s : St) :
  history (snd (chat ext cfg get_json s)) = history s
  \/ exists user_message response,
       history (snd (chat ext cfg get_json s))
       = (history s ++ [user_turn user_message; assistant_turn response])%list.
Proof.
  unfold chat. cbv beta iota delta [try_except bind lift].
  destruct get_json as [data | e]; [| now left].
  destruct (py_get data "message" (JStr "")) as [message | e]; [| now left].
  destruct (py_strip ext message) as [user_message | e]; [| now left].
  destruct (negb (truthy (JStr user_message))); [now left |].
  destruct (turn_leaves_one_exchange ext cfg user_message s)
    as (response & s' & Hrun & Hhist).
  rewrite Hrun. right. exists user_message, response. exact Hhist.
Qed.

(** [clear_conversation] empties the history or leaves it as it was. *)
Lemma clear_history_step (s : St) :
  history (snd (clear_conversation ext cfg s)) = []
  \/ history (snd (clear_conversation ext cfg s)) = history s.
Proof.
  rewrite clear_conversation_run.
  destruct (get_access_token_reaches s) as (r & s1 & Hrun & Hc & _).
  rewrite Hrun. destruct r; [now left | right].
  unfold history. cbn [snd]. now rewrite Hc.
Qed.

(** X11. Whatever requests are served, in whatever order and with whatever
    bodies and outcomes of the services, the history stays a sequence of
    exchanges, a user turn followed by an assistant turn: no request leaves
    a user turn without its answer. *)
Theorem history_stays_a_sequence_of_exchanges reqs (s : St) :
  exchanges (history s) = true ->
  exchanges (history (serve ext cfg reqs s)) = true.
Proof.
  revert s. induction reqs as [| req reqs IH]; intros s Hs; [exact Hs |].
  unfold serve. cbn [fold_left]. apply IH.
  destruct req as [get_json |]; cbn [handle].
  - destruct (chat_history_step get_json s) as [-> | (m & r & ->)];
      [exact Hs | now apply exchanges_grow].
  - destruct (clear_history_step s) as [-> | ->]; [reflexivity | exact Hs].
Qed.

(** X12. The first chat after a clearing that obtained its token returns a
    conversation of exactly two turns: the user's message and the reply. *)
Theorem chat_after_clear_starts_afresh (s : St) t s1 d text :
  get_access_token ext cfg s = (Ok t, s1) ->
  py_get (JDict d) "message" (JStr "") = Ok (JStr text) ->
  str_strip ext text <> "" ->
  exists s2 response s3,
    clear_conversation ext cfg s
    = (Ok (mkReply 200 (JDict [("status", JStr "cleared")])), s2)
    /\ chat ext cfg (Ok (JDict d)) s2
       = (Ok (mkReply 200
                (JDict [("response", JStr response);
                        ("conversation",
                         JList [jsonify_turn (user_turn (str_strip ext text));
                                jsonify_turn (assistant_turn response)])])),
          s3).
Proof.
  intros Htoken Hget Hstrip.
  pose (s2 := mkState (mkClaudeChatbot (mkExternalAPIClient t) [])
                (world s1) (trace s1)).
  destruct (turn_leaves_one_exchange ext cfg (str_strip ext text) s2)
    as (response & s' & Hrun & Hhist).
  exists s2, response, s'. split.
  - rewrite clear_conversation_run, Htoken. reflexivity.
  - unfold chat. cbv beta iota delta [try_except bind lift].
    rewrite Hget. cbn [py_strip truthy].
    destruct (String.eqb_spec (str_strip ext text) "") as [Heq | _]; [contradiction |].
    cbn [negb]. rewrite Hrun. cbv beta iota delta [get_self ret].
    unfold history in Hhist. cbn [s2 chatbot conversation_history app] in Hhist.
    rewrite Hhist. reflexivity.
Qed.

(** X13. A token response without ["access_token"] does not stop the
    construction of the chatbot: it is built with the token [None], and the
    request it then makes for the schools carries the header
    ["Bearer " + str(None)]. *)
Theorem missing_token_reaches_the_header (s : St) resp w d params :
  requests_post ext (password_grant cfg) (world s) = (Ok resp, w) ->
  error_status (status_code resp) = false ->
  json_body resp = Ok (JDict d) ->
  dict_lookup "access_token" d = None ->
  exists s1 v s2 evs,
    clear_conversation ext cfg s
    = (Ok (mkReply 200 (JDict [("status", JStr "cleared")])), s1)
    /\ token (api_client (chatbot s1)) = JNull
    /\ fetch_external_data ext cfg (JStr "schools") params s1 = (Ok v, s2)
    /\ trace s2
       = (trace s1
            ++ EvGet (schools_url cfg) ("Bearer " ++ py_repr ext JNull) :: evs)%list.
Proof.
  intros Hpost Hstatus Hbody Hmissing.
  pose proof (get_access_token_of_body s resp w (JDict d) Hpost Hstatus Hbody) as Htoken.
  cbn [py_get] in Htoken. rewrite Hmissing in Htoken.
  eexists. 
  rewrite clear_conversation_run, Htoken.
  rewrite fetch_external_data_run, fetch_block_schools, authorized_get_exact.
  cbn [chatbot api_client token world trace py_str].
  destruct (response_value _) as [v | e];
    eexists _, _, _; (split; [reflexivity |]); (split; [reflexivity |]);
    (split; [reflexivity |]); cbn [with_events trace].
  - reflexivity.
  - rewrite <- app_assoc. reflexivity.
Qed.

End AssistantMore.

(** * More properties of the weather script *)

Section WeatherMore.
Context {World : Type}.
Variable ext : Weather.Externals World.

Lemma weather_queries_app t1 t2 :
  weather_queries (t1 ++ t2) = (weather_queries t1 ++ weather_queries t2)%list.
Proof. apply flat_map_app. Qed.

(** The loop over cities the service answers for. *)
Lemma for_cities_served cs : forall fs (s : Weather.state World) w',
  served_in_turn ext (Weather.world s) cs fs w' ->
  exists s',
    Weather.for_cities ext cs s = (Ok tt, s')
    /\ Weather.world s' = w'
    /\ Weather.printed (Weather.trace s')
       = (Weather.printed (Weather.trace s) ++ city_blocks cs fs)%list
    /\ weather_queries (Weather.trace s')
       = (weather_queries (Weather.trace s) ++ map query_of cs)%list.
Proof.
  induction cs as [| [city [lat lon]] cs IH]; intros fs s w' Hserved.
  - destruct fs; [| contradiction]. cbn in Hserved. subst w'.
    exists s. cbn. now rewrite !app_nil_r.
  - destruct fs as [| f fs]; [contradiction |].
    destruct Hserved as (w1 & Hfirst & Hrest). cbn [fst snd] in Hfirst.
    cbn [Weather.for_cities]. cbv beta iota delta [bind].
    rewrite (report_run ext city lat lon s f w1 Hfirst).
    match goal with
    | |- context [Weather.for_cities ext cs ?st] =>
        destruct (IH fs st w' Hrest) as (s' & Hrun & Hworld & Hprinted & Hqueries)
    end.
    exists s'. split; [exact Hrun |]. split; [exact Hworld |].
    cbn [Weather.trace] in Hprinted, Hqueries.
    rewrite Hprinted, Hqueries, printed_app, weather_queries_app.
    unfold city_blocks. cbn [combine flat_map map fst snd query_of].
    rewrite <- !app_assoc. split; reflexivity.
Qed.

(** X14. The loop has no handler: when the request for a city fails, the
    script ends with that failure; the cities before it have their blocks
    printed, nothing is printed for the failing city, and no request is
    made for the cities after it. *)
Theorem failed_request_aborts_the_run
    before fs city lat lon after (s : Weather.state World) w1 e w2 :
  served_in_turn ext (Weather.world s) before fs w1 ->
  Weather.requests_get ext Weather.url (Weather.query lat lon) w1 = (Raise e, w2) ->
  exists s',
    Weather.for_cities ext (before ++ (city, (lat, lon)) :: after) s = (Raise e, s')
    /\ Weather.printed (Weather.trace s')
       = (Weather.printed (Weather.trace s) ++ city_blocks before fs)%list
    /\ weather_queries (Weather.trace s')
       = (weather_queries (Weather.trace s)
            ++ map query_of before ++ [Weather.query lat lon])%list.
Proof.
  revert fs s. induction before as [| [c [la lo]] before IH]; intros fs s Hserved Hfail.
  - destruct fs; [| contradiction]. cbn in Hserved. subst w1.
    cbn [app Weather.for_cities]. unfold Weather.report.
    cbv beta iota zeta delta [bind lift ret Weather.http_get Weather.emit].
    cbn [Weather.world Weather.trace]. rewrite Hfail.
    eexists. split; [reflexivity |]. cbn [Weather.trace].
    rewrite printed_app, weather_queries_app. cbn. now rewrite !app_nil_r.
  - destruct fs as [| f fs]; [contradiction |].
    destruct Hserved as (w0 & Hfirst & Hrest). cbn [fst snd] in Hfirst.
    cbn [app Weather.for_cities]. cbv beta iota delta [bind].
    rewrite (report_run ext c la lo s f w0 Hfirst).
    match goal with
    | |- context [Weather.for_cities ext _ ?st] =>
        destruct (IH fs st Hrest Hfail) as (s' & Hrun & Hprinted & Hqueries)
    end.
    exists s'. split; [exact Hrun |].
    cbn [Weather.trace] in Hprinted, Hqueries.
    rewrite Hprinted, Hqueries, printed_app, weather_queries_app.
    unfold city_blocks. cbn [combine flat_map map fst snd query_of].
    rewrite <- !app_assoc. split; reflexivity.
Qed.

(** X15. Both series are read before anything is printed: a forecast that
    has the temperatures and lacks ["relative_humidity_2m"] makes the turn
    of its city raise the [KeyError] of that key, and nothing is printed or
    charted for the city, the temperatures included. *)
Theorem missing_humidity_prints_nothing
    city lat lon (s : Weather.state World) r w' data hourly temps :
  Weather.requests_get ext Weather.url (Weather.query lat lon) (Weather.world s)
  = (Ok r, w') ->
  json_body r = Ok data ->
  py_getitem data "hourly" = Ok (JDict hourly) ->
  dict_lookup "temperature_2m" hourly = Some (JList temps) ->
  dict_lookup "relative_humidity_2m" hourly = None ->
  Weather.report ext city lat lon s
  = (Raise (key_error "relative_humidity_2m"),
     Weather.mkState w'
       (Weather.trace s ++ [Weather.EvGet Weather.url (Weather.query lat lon)])).
Proof.
  intros Hget Hbody Hhourly Htemps Hhums.
  unfold Weather.report.
  cbv beta iota zeta delta [bind lift ret Weather.http_get Weather.emit].
  cbn [Weather.world Weather.trace].
  rewrite Hget, Hbody, Hhourly. cbn [py_getitem]. rewrite Htemps, Hhums.
  reflexivity.
Qed.

(** X16. A series of fewer than 24 values does not fail the slice: the
    chart is drawn of the whole series, be it empty. *)
Theorem short_series_are_charted_whole
    city lat lon (s : Weather.state World) r w' data hourly temps hums
    temperature_chart humidity_chart :
  Weather.requests_get ext Weather.url (Weather.query lat lon) (Weather.world s)
  = (Ok r, w') ->
  json_body r = Ok data ->
  py_getitem data "hourly" = Ok hourly ->
  py_getitem hourly "temperature_2m" = Ok (JList temps) ->
  py_getitem hourly "relative_humidity_2m" = Ok (JList hums) ->
  (length temps <= 24)%nat ->
  (length hums <= 24)%nat ->
  Weather.ac_plot ext (JList temps) = Ok temperature_chart ->
  Weather.ac_plot ext (JList hums) = Ok humidity_chart ->
  exists s',
    Weather.report ext city lat lon s = (Ok tt, s')
    /\ Weather.plotted (Weather.trace s')
       = (Weather.plotted (Weather.trace s) ++ [JList temps; JList hums])%list
    /\ Weather.printed (Weather.trace s')
       = (Weather.printed (Weather.trace s)
            ++ [Weather.separator; Weather.temperature_title city; temperature_chart;
                Weather.humidity_title city; humidity_chart])%list.
Proof.
  intros Hget Hbody Hhourly Htemps Hhums Hlt Hlh Hct Hch.
  unfold Weather.report.
  cbv beta iota zeta delta
    [bind lift ret Weather.http_get Weather.emit Weather.print Weather.plot].
  cbn [Weather.world Weather.trace].
  rewrite Hget, Hbody, Hhourly, Htemps, Hhums. cbn [py_slice_to].
  rewrite (firstn_all2 temps Hlt), (firstn_all2 hums Hlh), Hct, Hch.
  eexists. split; [reflexivity |]. cbn [Weather.world Weather.trace].
  rewrite <- !app_assoc. rewrite plotted_app, printed_app. split; reflexivity.
Qed.

End WeatherMore.

(** * More statements on the scripted worlds *)

(** X1 on a message with blanks around it, after two stored turns. *)
Lemma chat_returns_whole_history_example :
  let s := Mock.start [user_turn "q1"; assistant_turn "a1"] (Mock.replies [Ok "a2"]) in
  exists s',
    chat Mock.ext Mock.cfg (Ok (JDict [("message", JStr "  q2 ")])) s
    = (Ok (mkReply 200
             (JDict [("response", JStr "a2");
                     ("conversation",
                      JList (map jsonify_turn
                               [user_turn "q1"; assistant_turn "a1";
                                user_turn "q2"; assistant_turn "a2"]))])),
       s').
Proof.
  intros s.
  destruct (chat_returns_whole_history Mock.ext Mock.cfg s
              [("message", JStr "  q2 ")] "  q2 " eq_refl)
    as (response & s' & Hrun & Hhist).
  { vm_compute. discriminate. }
  exists s'. rewrite Hrun.
  assert (Hresp : response = "a2").
  { pose proof (f_equal fst Hrun) as H. vm_compute in H.
    now injection H as <-. }
  subst response. rewrite Hhist. reflexivity.
Defined.

(** X3 on a sensors directive whose room is the empty string. *)
Lemma missing_parameter_example :
  let s := Mock.start [] (Mock.mkWorld [] [] [Mock.http_ok (JList [])]) in
  fetch_external_data Mock.ext Mock.cfg (JStr "sensors")
    (JDict [("room_uuid", JStr "")]) s
  = (Ok (error_object "Room UUID required for fetching sensors"), s).
Proof.
  intros s.
  apply (missing_parameter_is_not_fetched Mock.ext Mock.cfg
           (mkRequirement "sensors" "room_uuid"
              "Room UUID required for fetching sensors" "/group/" "/resource")
           (JDict [("room_uuid", JStr "")]) (JStr "") s).
  - cbn. auto.
  - reflexivity.
  - reflexivity.
Defined.

(** X4 on params that are a list. *)
Lemma params_of_another_type_example :
  let s := Mock.start [] (Mock.mkWorld [] [] [Mock.http_ok (JList [])]) in
  fetch_external_data Mock.ext Mock.cfg (JStr "values") (JList [JStr "s-1"]) s
  = (Ok (error_object
           "Failed to fetch values: 'list' object has no attribute 'get'"),
     with_events [EvLog "API fetch error: 'list' object has no attribute 'get'"] s).
Proof.
  intros s.
  apply (params_of_another_type_are_reported Mock.ext Mock.cfg
           (mkRequirement "values" "sensor_uuid"
              "Sensor UUID required for fetching values" "/resource/" "/latest")
           (JList [JStr "s-1"]) s).
  - cbn. auto.
  - reflexivity.
Defined.

(** X5 on rooms of a school the API does not know: a 404. *)
Lemma resource_request_example :
  let target := "https://iot.example/api/group/school-9/subgroup/3" in
  let s := Mock.start []
             (Mock.mkWorld [] [] [MoreMock.http_status 404 "Not Found" target]) in
  exists s',
    fetch_external_data Mock.ext Mock.cfg (JStr "rooms")
      (JDict [("school_uuid", JStr "school-9")]) s
    = (Ok (error_object
             ("Failed to fetch rooms: 404 Client Error: Not Found for url: " ++ target)),
       s')
    /\ resource_calls (trace s') = [EvGet target "Bearer t0"].
Proof.
  intros target s.
  pose proof (resource_request_decides Mock.ext Mock.cfg
                (mkRequirement "rooms" "school_uuid"
                   "School UUID required for fetching rooms" "/group/" "/subgroup/3")
                (JDict [("school_uuid", JStr "school-9")]) (JStr "school-9") s
                (MoreMock.http_status 404 "Not Found" target)
                (Mock.mkWorld [] [] [])
                (or_introl eq_refl) eq_refl eq_refl eq_refl) as Hrun.
  cbv zeta in Hrun. cbn [req_kind] in Hrun.
  eexists. rewrite Hrun. split; vm_compute; reflexivity.
Defined.

(** X6 on params that are [None]. *)
Lemma schools_request_example :
  let s := Mock.start []
             (Mock.mkWorld [] [] [Mock.http_ok (JList [JStr "North"; JStr "South"])]) in
  exists s',
    fetch_external_data Mock.ext Mock.cfg (JStr "schools") JNull s
    = (Ok (JList [JStr "North"; JStr "South"]), s')
    /\ trace s' = [EvGet "https://iot.example/api/group/main" "Bearer t0"].
Proof.
  intros s.
  pose proof (schools_request_ignores_params Mock.ext Mock.cfg JNull s
                (Mock.http_ok (JList [JStr "North"; JStr "South"]))
                (Mock.mkWorld [] [] []) eq_refl) as Hrun.
  cbv zeta in Hrun.
  eexists. rewrite Hrun. split; vm_compute; reflexivity.
Defined.

(** X8 on a reply that names a kind and declines. *)
Lemma declined_directive_example :
  let s := Mock.start []
             (Mock.mkWorld [Ok MoreMock.declined_directive; Ok "unused"] []
                [Mock.http_ok (JList [])]) in
  exists s',
    process_message MoreMock.ext Mock.cfg "Hello" s
    = (Ok MoreMock.declined_directive, s')
    /\ history s' = [user_turn "Hello"; assistant_turn MoreMock.declined_directive]
    /\ length (trace s') = 1%nat.
Proof.
  intros s.
  pose (s1 := snd (call_claude_api MoreMock.ext "Hello" JNull
                     (with_turn (user_turn "Hello") s))).
  destruct (declined_directive_is_direct_answer MoreMock.ext Mock.cfg "Hello" s
              MoreMock.declined_directive s1
              [("needsAPI", JBool false); ("apiType", JStr "schools")])
    as (Hrun & Hhist).
  - vm_compute; reflexivity.
  - vm_compute; reflexivity.
  - reflexivity.
  - eexists. split; [exact Hrun |]. split; [exact Hhist | reflexivity].
Defined.

(** X9 on a schools endpoint that answers [null]. *)
Lemma null_data_example :
  let s := Mock.start []
             (Mock.mkWorld [Ok Mock.schools_directive; Ok Mock.schools_directive] []
                [Mock.http_ok JNull]) in
  exists s' intent,
    process_message Mock.ext Mock.cfg "List the schools" s
    = (Ok Mock.schools_directive, s')
    /\ model_calls (trace s') = [intent; intent]
    /\ system intent = INTENT_PROMPT.
Proof.
  intros s.
  pose (s0 := with_turn (user_turn "List the schools") s).
  pose (s1 := snd (call_claude_api Mock.ext "List the schools" JNull s0)).
  pose (s2 := snd (fetch_external_data Mock.ext Mock.cfg (JStr "schools") (JDict []) s1)).
  destruct (null_data_repeats_the_intent_request Mock.ext Mock.cfg "List the schools" s
              Mock.schools_directive s1 (JStr "schools") (JDict []) s2)
    as (final_response & s3 & evs & Hrun & Htrace & Hcalls & Hsys).
  - vm_compute; reflexivity.
  - vm_compute; reflexivity.
  - vm_compute; reflexivity.
  - assert (Hfinal : final_response = Mock.schools_directive).
    { pose proof (f_equal fst Hrun) as H. vm_compute in H.
      injection H as <-. vm_compute; reflexivity. }
    subst final_response.
    eexists _, _. split; [exact Hrun |].
    cbn [with_turn trace]. rewrite Htrace. cbn [s Mock.start trace app].
    split; [exact Hcalls | exact Hsys].
Defined.

(** X11 on three chats with a clearing that fails in between. *)
Lemma history_of_exchanges_example :
  let s := Mock.start [] (Mock.replies [Ok "a1"; Ok Mock.rooms_directive; Ok "a2"]) in
  let reqs := [Chat (Ok (JDict [("message", JStr "q1")]));
               Chat (Ok (JDict [("message", JInt 7)]));
               Clear;
               Chat (Ok (JDict [("message", JStr "q2")]))] in
  exchanges (history (serve Mock.ext Mock.cfg reqs s)) = true
  /\ length (history (serve Mock.ext Mock.cfg reqs s)) = 4%nat.
Proof.
  intros s reqs. split.
  - apply (history_stays_a_sequence_of_exchanges Mock.ext Mock.cfg reqs s).
    reflexivity.
  - vm_compute; reflexivity.
Defined.

(** X12 on a clearing that obtains the token ["t1"]. *)
Lemma chat_after_clear_example :
  let token_response :=
    Ok (mkResponse 200 "OK" "https://iot.example/token"
          (Ok (JDict [("access_token", JStr "t1")]))) in
  let s := Mock.start [user_turn "q1"; assistant_turn "a1"]
             (Mock.mkWorld [Ok "a2"] [token_response] []) in
  exists s2 response s3,
    clear_conversation Mock.ext Mock.cfg s
    = (Ok (mkReply 200 (JDict [("status", JStr "cleared")])), s2)
    /\ chat Mock.ext Mock.cfg (Ok (JDict [("message", JStr "q2")])) s2
       = (Ok (mkReply 200
                (JDict [("response", JStr response);
                        ("conversation",
                         JList [jsonify_turn (user_turn "q2");
                                jsonify_turn (assistant_turn response)])])),
          s3).
Proof.
  intros token_response s.
  apply (chat_after_clear_starts_afresh Mock.ext Mock.cfg s (JStr "t1")
           (snd (get_access_token Mock.ext Mock.cfg s))
           [("message", JStr "q2")] "q2").
  - vm_compute; reflexivity.
  - reflexivity.
  - vm_compute. discriminate.
Defined.

(** X13 on a token response without the token. *)
Lemma missing_token_example :
  let tokenless :=
    mkResponse 200 "OK" "https://iot.example/token"
      (Ok (JDict [("token_type", JStr "bearer")])) in
  let s := Mock.start [] (Mock.mkWorld [] [Ok tokenless] [Mock.http_ok (JList [])]) in
  exists s1 v s2 evs,
    clear_conversation Mock.ext Mock.cfg s
    = (Ok (mkReply 200 (JDict [("status", JStr "cleared")])), s1)
    /\ token (api_client (chatbot s1)) = JNull
    /\ fetch_external_data Mock.ext Mock.cfg (JStr "schools") (JDict []) s1 = (Ok v, s2)
    /\ trace s2
       = (trace s1
            ++ EvGet "https://iot.example/api/group/main" "Bearer None" :: evs)%list.
Proof.
  intros tokenless s.
  apply (missing_token_reaches_the_header Mock.ext Mock.cfg s tokenless
           (Mock.mkWorld [] [] [Mock.http_ok (JList [])])
           [("token_type", JStr "bearer")] (JDict [])); reflexivity.
Defined.

(** The scripted forecast service serves what it was scripted with. *)
Lemma scripted_serves t0 h0 lat lon rest :
  Weather.served Weather.scripted (Weather.forecast_response t0 h0 :: rest) lat lon
    (Weather.sample_of t0 h0) rest.
Proof.
  exists (mkResponse 200 "OK" Weather.url (Ok (Weather.forecast_body t0 h0))),
    (Weather.forecast_body t0 h0),
    (JDict [("time", JList []);
            ("temperature_2m", JList (Weather.thirty t0));
            ("relative_humidity_2m", JList (Weather.thirty h0))]).
  repeat split; try reflexivity; cbn; lia.
Qed.

(** X14 on a service that answers for Berlin and then goes away. *)
Lemma failed_request_example :
  let s := Weather.mkState [Weather.forecast_response 10 60] [] in
  exists e s',
    Weather.main Weather.scripted s = (Raise e, s')
    /\ Weather.printed (Weather.trace s')
       = Weather.city_block "Berlin" (Weather.sample_of 10 60)
    /\ length (weather_queries (Weather.trace s')) = 2%nat.
Proof.
  intros s.
  destruct (failed_request_aborts_the_run Weather.scripted
              [("Berlin", (52.52, 13.41)%float)] [Weather.sample_of 10 60]
              "Paris" 48.85%float 2.35%float [("Rome", (41.90, 12.49)%float)]
              s [] (mkExn OtherException "Connection refused") [])
    as (s' & Hrun & Hprinted & Hqueries).
  - exists []. split; [apply scripted_serves | reflexivity].
  - reflexivity.
  - exists (mkExn OtherException "Connection refused"), s'.
    split; [exact Hrun |]. split.
    + rewrite Hprinted. cbn. reflexivity.
    + rewrite Hqueries. reflexivity.
Defined.

(** X15 on a forecast with temperatures only. *)
Lemma missing_humidity_example :
  let body := JDict [("hourly", JDict [("temperature_2m", JList (Weather.thirty 10))])] in
  let s := Weather.mkState [Ok (mkResponse 200 "OK" Weather.url (Ok body))] [] in
  Weather.report Weather.scripted "Berlin" 52.52 13.41 s
  = (Raise (mkExn KeyError "'relative_humidity_2m'"),
     Weather.mkState []
       [Weather.EvGet Weather.url (Weather.query 52.52 13.41)]).
Proof.
  intros body s.
  apply (missing_humidity_prints_nothing Weather.scripted "Berlin" 52.52%float 13.41%float
           s (mkResponse 200 "OK" Weather.url (Ok body)) [] body
           [("temperature_2m", JList (Weather.thirty 10))] (Weather.thirty 10));
    reflexivity.
Defined.

(** X16 on series of three values. *)
Lemma short_series_example :
  let temps := [JInt 11; JInt 12; JInt 13] in
  let hums := [JInt 70; JInt 71; JInt 72] in
  let body := JDict [("hourly", JDict [("temperature_2m", JList temps);
                                       ("relative_humidity_2m", JList hums)])] in
  let s := Weather.mkState [Ok (mkResponse 200 "OK" Weather.url (Ok body))] [] in
  exists s',
    Weather.report Weather.scripted "Rome" 41.90 12.49 s = (Ok tt, s')
    /\ Weather.plotted (Weather.trace s') = [JList temps; JList hums]
    /\ Weather.printed (Weather.trace s')
       = [Weather.separator; Weather.temperature_title "Rome"; "11 12 13";
          Weather.humidity_title "Rome"; "70 71 72"].
Proof.
  intros temps hums body s.
  apply (short_series_are_charted_whole Weather.scripted "Rome" 41.90%float 12.49%float
           s (mkResponse 200 "OK" Weather.url (Ok body)) [] body
           (JDict [("temperature_2m", JList temps);
                   ("relative_humidity_2m", JList hums)])
           temps hums "11 12 13" "70 71 72");
    try reflexivity; cbn; lia.
Defined.
